(** * The response pane of the API client

    A shallow embedding of
    [packages/insomnia/src/ui/components/panes/response-pane.tsx].

    The component reads the loader data of the route, derives a little view
    state, renders one of its view variants and hands three user actions to
    its children: [handleSetFilter], [handleCopyResponseToClipboard] and
    [handleDownloadResponseBody].  Every action is a sequence of calls into
    collaborators that live outside the file (the metadata store, the
    response store, the file dialog, the file system, the clipboard).  The
    actions are embedded as programs over the signature of those calls; a
    program is run against a host, which answers each call, and the run
    yields the trace of calls with their answers.  The properties below are
    statements about these traces, for every host. *)

From Stdlib Require Import ZArith Ascii String.
From stdpp Require Import base list strings gmap pretty.

Open Scope Z_scope.
Open Scope string_scope.
Open Scope list_scope.

(** ** Values of the language *)

(** [ToBoolean] of the language: the test behind [if], [!], [&&], [||] and
    the conditional operator. *)
Class ToBoolean (A : Type) := truthy : A → bool.
Global Hint Mode ToBoolean ! : typeclass_instances.

(** A string is falsy exactly when it is empty. *)
Global Instance string_truthy : ToBoolean string :=
  λ s, match s with EmptyString => false | String _ _ => true end.

Global Instance bool_truthy : ToBoolean bool := λ b, b.

(** [null] and [undefined] are falsy; a present value is as truthy as it is. *)
Global Instance option_truthy `{ToBoolean A} : ToBoolean (option A) :=
  λ o, match o with None => false | Some a => truthy a end.

(** Arrays and buffers are objects: truthy, also when empty. *)
Global Instance list_truthy {A} : ToBoolean (list A) := λ _, true.

(** [a || b] on values of one type. *)
Definition or_else `{ToBoolean A} (a b : A) : A := if truthy a then a else b.
Infix "|||" := or_else (at level 50, left associativity).

(** [o || b] where [o] may be [undefined]. *)
Definition or_default `{ToBoolean A} (o : option A) (b : A) : A :=
  match o with
  | Some a => if truthy a then a else b
  | None => b
  end.

(** ** Arrays and strings *)

Module Array.
(** [a.slice(0, n)] *)
Definition slice0 {A} (n : nat) (a : list A) : list A := take n a.

(** [a.includes(x)] on an array of strings *)
Fixpoint includes (a : list string) (x : string) : bool :=
  match a with
  | [] => false
  | y :: a' => if String.eqb y x then true else includes a' x
  end.

(** [a.unshift(x)]: the array after the call *)
Definition unshift {A} (a : list A) (x : A) : list A := x :: a.

(** [a.push(x)]: the array after the call *)
Definition push {A} (a : list A) (x : A) : list A := a ++ [x].
End Array.

Module Str.
(** [s.includes(t)]: [t] occurs in [s] as a substring. *)
Fixpoint includes (s t : string) : bool :=
  if String.prefix t s then true
  else match s with
       | EmptyString => false
       | String _ s' => includes s' t
       end.

(** [s.replace(/ +/g, '_')]: every maximal run of spaces becomes one
    underscore.  [in_run] tells that the character before was a space. *)
Fixpoint replace_spaces_from (in_run : bool) (s : string) : string :=
  match s with
  | EmptyString => EmptyString
  | String c s' =>
      if Ascii.eqb c " "%char
      then (if in_run then replace_spaces_from true s'
            else String "_"%char (replace_spaces_from true s'))
      else String c (replace_spaces_from false s')
  end.

Definition replace_spaces (s : string) : string := replace_spaces_from false s.
End Str.

(** A [Buffer] is its bytes; [Buffer.concat] joins a list of them. *)
Definition Buffer := list Byte.byte.

Module BufferOps.
Definition concat (bs : list Buffer) : Buffer := List.concat bs.
End BufferOps.

(** ** The data the component reads

    The records keep the fields the component touches.  The loader's type
    declaration is not part of the file; the fields are typed by their use. *)

Record Header := { header_name : string; header_value : string }.

Module Request.
Record t := { _id : string; name : string }.
End Request.

Module Response.
Record t := {
  _id : string;
  parentId : string;
  statusCode : Z;
  statusMessage : string;
  elapsedTime : Z;
  bytesRead : Z;
  bytesContent : Z;
  contentType : string;
  headers : list Header;
  error : option string;
  url : string;
  settingSendCookies : bool;
  settingStoreCookies : bool;
}.
End Response.

Module RequestMeta.
Record t := {
  previewMode : string;
  responseFilter : string;
  responseFilterHistory : list string;
}.

(** The argument of a patch: the fields it names. *)
Record patch := {
  set_previewMode : option string;
  set_responseFilter : option string;
  set_responseFilterHistory : option (list string);
}.
End RequestMeta.

(** A request, a response and the records above are objects: truthy. *)
Global Instance Request_truthy : ToBoolean Request.t := λ _, true.
Global Instance Response_truthy : ToBoolean Response.t := λ _, true.
Global Instance RequestMeta_truthy : ToBoolean RequestMeta.t := λ _, true.

Record Settings := {
  disableHtmlPreviewJs : bool;
  disableResponsePreviewLinks : bool;
  editorFontSize : Z;
}.

Record ExecutionState := { isExecuting : bool; steps : list string }.

(** What [useRouteLoaderData('request/:requestId')] hands over.  Every
    render reads a field of [activeRequestMeta] (line 40) and of
    [activeRequest] (line 78) before any test, so both are objects;
    [activeResponse] may be [null]. *)
Record RequestLoaderData := {
  activeRequest : Request.t;
  activeRequestMeta : RequestMeta.t;
  activeResponse : option Response.t;
}.

(** ** Streams, dialogs and errors of the host *)

(** An error object, as a stream raises it. *)
Record Error := { error_message : string }.

(** A readable stream is the sequence of events it emits to its listeners;
    this file listens to ['data'] and ['end'] only. *)
Inductive ReadEvent :=
| on_data (data : Buffer)
| on_end.

Definition ReadStream := list ReadEvent.

(** [models.response.getBodyStream]: nothing, a string, or a stream. *)
Inductive BodyStream :=
| no_stream
| string_body (s : string)
| readable (r : ReadStream).

Global Instance BodyStream_truthy : ToBoolean BodyStream :=
  λ b, match b with
       | no_stream => false
       | string_body s => truthy s
       | readable _ => true
       end.

(** [typeof b === 'string'] *)
Definition typeof_string (b : BodyStream) : bool :=
  match b with string_body _ => true | _ => false end.

(** A file-write stream is the path it was created for and the ['error']
    events it will raise; the host decides the latter when the stream is
    created. *)
Record WriteStream := { ws_path : string; ws_errors : list Error }.

(** What [to.write] is given: text or bytes. *)
Inductive Chunk :=
| chunk_text (s : string)
| chunk_bytes (b : Buffer).

Record SaveDialogOptions := {
  title : string;
  buttonLabel : string;
  defaultPath : string;
}.

Record SaveDialogResult := { canceled : bool; filePath : option string }.

Record ErrorModal := {
  modal_title : string;
  modal_message : string;
  modal_error : Error;
}.

(** ** Calls into the collaborators, and programs over them *)

Inductive Op :=
| patchRequestMeta (requestId : string) (patch : RequestMeta.patch)
| requestMeta_getByParentId (requestId : string)
| response_getBodyBuffer (response : Response.t)
| response_getBodyStream (response : Response.t)
| clipboard_writeText (s : string)
| console_warn (s : string)
| Date_now
| dialog_showSaveDialog (options : SaveDialogOptions)
| fs_createWriteStream (path : string)
| stream_write (to : WriteStream) (chunk : Chunk)
| stream_end (to : WriteStream)
| showError (modal : ErrorModal)
| cancelRequestById (requestId : string).

(** The type of the answer to each call. *)
Definition Ans (o : Op) : Type :=
  match o with
  | requestMeta_getByParentId _ => option RequestMeta.t
  | response_getBodyBuffer _ => option Buffer
  | response_getBodyStream _ => BodyStream
  | Date_now => Z
  | dialog_showSaveDialog _ => SaveDialogResult
  | fs_createWriteStream _ => list Error
  | _ => unit
  end.

Inductive Prog (A : Type) : Type :=
| Ret (a : A)
| Call (o : Op) (k : Ans o → Prog A).
Arguments Ret {A} a.
Arguments Call {A} o k.

Fixpoint bind {A B} (p : Prog A) (f : A → Prog B) : Prog B :=
  match p with
  | Ret a => f a
  | Call o k => Call o (λ x, bind (k x) f)
  end.

Global Instance Prog_ret : MRet Prog := @Ret.
Global Instance Prog_bind : MBind Prog := λ A B f p, bind p f.

Definition call (o : Op) : Prog (Ans o) := Call o Ret.

(** [for (const x of xs) body(x)] *)
Fixpoint for_each {A} (xs : list A) (body : A → Prog unit) : Prog unit :=
  match xs with
  | [] => Ret tt
  | x :: xs' => body x;; for_each xs' body
  end.

(** One step of a run: a call and its answer. *)
Record Step := { op : Op; ans : Ans op }.

(** A host answers every call from its state. *)
Class Host (W : Type) := answer : ∀ o : Op, W → Ans o * W.

Fixpoint run {W} {host : Host W} {A} (p : Prog A) (w : W) : A * W * list Step :=
  match p with
  | Ret a => (a, w, [])
  | Call o k =>
      let '(x, w1) := answer o w in
      let '(a, w2, t) := run (k x) w1 in
      (a, w2, {| op := o; ans := x |} :: t)
  end.

Definition trace {W} {host : Host W} {A} (p : Prog A) (w : W) : list Step :=
  (run p w).2.

Definition final {W} {host : Host W} {A} (p : Prog A) (w : W) : W :=
  (run p w).1.2.

(** ** What the file imports *)

(** Modelled from the spec: the constant [PREVIEW_MODE_SOURCE] of
    [common/constants], which the file imports and the spec names as the
    preview mode "source". *)
Definition PREVIEW_MODE_SOURCE : string := "source".

(** The imported functions the component calls as pure functions: the MIME
    table, the pretty-printer, the decoder behind [toString('utf8')], the
    cookie-header selection and the stored timeline. *)
Class Imports := {
  mimeExtension : string → option string;
  jsonPrettify : string → string;
  toString_utf8 : Buffer → string;
  getSetCookieHeaders : list Header → list Header;
  getTimeline : Response.t → list string;
}.

(** ** The views the component renders *)

Module ResponseTimer.
Record props := {
  handleCancel : Prog unit;
  activeRequestId : string;
  steps : list string;
}.
End ResponseTimer.

Module ResponseViewer.
Record props := {
  key : string;
  bytes : Z;
  contentType : string;
  disableHtmlPreviewJs : bool;
  disablePreviewLinks : bool;
  download : bool → Prog unit;
  editorFontSize : Z;
  error : option string;
  filter : string;
  filterHistory : list string;
  getBody : Prog (option Buffer);
  previewMode : string;
  responseId : string;
  updateFilter : option (string → Prog unit);
  url : string;
}.
End ResponseViewer.

Record PaneHeader := {
  status_statusCode : Z;
  status_statusMessage : string;
  time_milliseconds : Z;
  time_steps : list string;
  size_bytesRead : Z;
  size_bytesContent : Z;
  history_activeResponse : Response.t;
}.

Record Tabs := {
  preview_download : bool → Prog unit;
  preview_copyToClipboard : Prog unit;
  preview_viewer : ResponseViewer.props;
  headers_count : option nat;
  headers_viewer : list Header;
  cookies_count : option nat;
  cookies_cookiesSent : bool;
  cookies_cookiesStored : bool;
  cookies_headers : list Header;
  timeline_viewer : list string;
}.

Inductive Element :=
| BlankPane (type : string)
| PlaceholderResponsePane (timer : option ResponseTimer.props)
| Pane (type : string) (header : option PaneHeader) (tabs : Tabs)
       (timer : option ResponseTimer.props).

(** [n > 0 && <span>{n}</span>] *)
Definition count_badge (n : nat) : option nat :=
  if (0 <? n)%nat then Some n else None.

(** ** The component *)

Section ResponsePane.
Context {imports : Imports}.

(** The component's property, and what its hooks return in this render. *)
Variable activeRequestId : string.
Variable data : RequestLoaderData.
Variable settings : Settings.
Variable useExecutionState : string → ExecutionState.

Definition filterHistory : list string :=
  RequestMeta.responseFilterHistory (activeRequestMeta data) ||| [].

Definition filter : string :=
  RequestMeta.responseFilter (activeRequestMeta data) ||| "".

Definition previewMode : string :=
  RequestMeta.previewMode (activeRequestMeta data) ||| PREVIEW_MODE_SOURCE.

(** The first patch is awaited; the last one is started and not awaited.
    Both are calls of the run. *)
Definition handleSetFilter (responseFilter : string) : Prog unit :=
  match activeResponse data with
  | None => Ret tt
  | Some activeResponse =>
      let requestId := Response.parentId activeResponse in
      call (patchRequestMeta requestId
              {| RequestMeta.set_previewMode := None;
                 RequestMeta.set_responseFilter := Some responseFilter;
                 RequestMeta.set_responseFilterHistory := None |});;
      meta ← call (requestMeta_getByParentId requestId);
      match meta with
      | None => Ret tt
      | Some meta =>
          let responseFilterHistory :=
            Array.slice0 10 (RequestMeta.responseFilterHistory meta) in
          (* Already in history or empty? *)
          if negb (truthy responseFilter)
             || Array.includes responseFilterHistory responseFilter
          then Ret tt
          else
            let responseFilterHistory :=
              Array.unshift responseFilterHistory responseFilter in
            call (patchRequestMeta requestId
                    {| RequestMeta.set_previewMode := None;
                       RequestMeta.set_responseFilter := None;
                       RequestMeta.set_responseFilterHistory :=
                         Some responseFilterHistory |})
      end
  end.

Definition handleGetResponseBody : Prog (option Buffer) :=
  match activeResponse data with
  | None => Ret None
  | Some activeResponse => call (response_getBodyBuffer activeResponse)
  end.

Definition handleCopyResponseToClipboard : Prog unit :=
  bodyBuffer ← handleGetResponseBody;
  match bodyBuffer with
  | Some bodyBuffer =>
      if truthy bodyBuffer
      then call (clipboard_writeText (toString_utf8 bodyBuffer))
      else Ret tt
  | None => Ret tt
  end.

(** The listener of ['end']: [dataBuffers] is the array the ['data']
    listener has filled so far.  The write stream raises its errors after
    the listener has returned; each one reaches the ['error'] listener. *)
Definition end_listener (prettify : bool) (contentType outputPath : string)
    (dataBuffers : list Buffer) : Prog unit :=
  raised ← call (fs_createWriteStream outputPath);
  let to := {| ws_path := outputPath; ws_errors := raised |} in
  let finalBuffer := BufferOps.concat dataBuffers in
  let error_listener (err : Error) : Prog unit :=
    call (showError {| modal_title := "Save Failed";
                       modal_message := "Failed to save response body";
                       modal_error := err |}) in
  (if prettify && Str.includes contentType "json"
   then call (stream_write to
                (chunk_text (jsonPrettify (toString_utf8 finalBuffer))))
   else call (stream_write to (chunk_bytes finalBuffer)));;
  call (stream_end to);;
  for_each (ws_errors to) error_listener.

(** The stream delivers its events in order: ['data'] pushes onto
    [dataBuffers], ['end'] runs the listener above. *)
Fixpoint emit (events : ReadStream) (dataBuffers : list Buffer)
    (on_end_do : list Buffer → Prog unit) : Prog unit :=
  match events with
  | [] => Ret tt
  | on_data data :: events' =>
      emit events' (Array.push dataBuffers data) on_end_do
  | on_end :: events' =>
      on_end_do dataBuffers;; emit events' dataBuffers on_end_do
  end.

Definition handleDownloadResponseBody (prettify : bool) : Prog unit :=
  let nothing_to_download : Prog unit :=
    call (console_warn "Nothing to download") in
  match activeResponse data with
  | None => nothing_to_download
  | Some activeResponse =>
      if negb (truthy (activeRequest data)) then nothing_to_download
      else
        let contentType := Response.contentType activeResponse in
        let extension := or_default (mimeExtension contentType) "unknown" in
        now ← call Date_now;
        result ← call (dialog_showSaveDialog
                   {| title := "Save Response Body";
                      buttonLabel := "Save";
                      defaultPath :=
                        Str.replace_spaces (Request.name (activeRequest data))
                        +:+ "-" +:+ pretty now +:+ "." +:+ extension |});
        let outputPath := filePath result in
        if canceled result then Ret tt
        else
          readStream ← call (response_getBodyStream activeResponse);
          let dataBuffers : list Buffer := [] in
          if truthy readStream && truthy outputPath
             && negb (typeof_string readStream)
          then
            match readStream, outputPath with
            | readable events, Some outputPath =>
                emit events dataBuffers
                  (end_listener prettify contentType outputPath)
            | _, _ => Ret tt
            end
          else Ret tt
  end.

Definition timer : option ResponseTimer.props :=
  let execution :=
    useExecutionState (Request._id (activeRequest data)) in
  if isExecuting execution
  then Some {| ResponseTimer.handleCancel :=
                 call (cancelRequestById (Request._id (activeRequest data)));
               ResponseTimer.activeRequestId := activeRequestId;
               ResponseTimer.steps := steps execution |}
  else None.

Definition ResponsePane : Element :=
  let execution :=
    useExecutionState (Request._id (activeRequest data)) in
  if negb (truthy (activeRequest data)) then BlankPane "response"
  else
    (* If there is no previous response, show placeholder for loading
       indicator *)
    match activeResponse data with
    | None => PlaceholderResponsePane timer
    | Some activeResponse =>
        let timeline := getTimeline activeResponse in
        let cookieHeaders :=
          getSetCookieHeaders (Response.headers activeResponse) in
        Pane "response"
          (Some {| status_statusCode := Response.statusCode activeResponse;
                   status_statusMessage :=
                     Response.statusMessage activeResponse;
                   time_milliseconds := Response.elapsedTime activeResponse;
                   time_steps := steps execution;
                   size_bytesRead := Response.bytesRead activeResponse;
                   size_bytesContent := Response.bytesContent activeResponse;
                   history_activeResponse := activeResponse |})
          {| preview_download := handleDownloadResponseBody;
             preview_copyToClipboard := handleCopyResponseToClipboard;
             preview_viewer :=
               {| ResponseViewer.key := Response._id activeResponse;
                  ResponseViewer.bytes :=
                    Z.max (Response.bytesContent activeResponse)
                          (Response.bytesRead activeResponse);
                  ResponseViewer.contentType :=
                    Response.contentType activeResponse ||| "";
                  ResponseViewer.disableHtmlPreviewJs :=
                    disableHtmlPreviewJs settings;
                  ResponseViewer.disablePreviewLinks :=
                    disableResponsePreviewLinks settings;
                  ResponseViewer.download := handleDownloadResponseBody;
                  ResponseViewer.editorFontSize := editorFontSize settings;
                  ResponseViewer.error := Response.error activeResponse;
                  ResponseViewer.filter := filter;
                  ResponseViewer.filterHistory := filterHistory;
                  ResponseViewer.getBody := handleGetResponseBody;
                  ResponseViewer.previewMode :=
                    if truthy (Response.error activeResponse)
                    then PREVIEW_MODE_SOURCE else previewMode;
                  ResponseViewer.responseId := Response._id activeResponse;
                  ResponseViewer.updateFilter :=
                    if truthy (Response.error activeResponse)
                    then None else Some handleSetFilter;
                  ResponseViewer.url := Response.url activeResponse |};
             headers_count :=
               count_badge (length (Response.headers activeResponse));
             headers_viewer := Response.headers activeResponse;
             cookies_count := count_badge (length cookieHeaders);
             cookies_cookiesSent :=
               Response.settingSendCookies activeResponse;
             cookies_cookiesStored :=
               Response.settingStoreCookies activeResponse;
             cookies_headers := cookieHeaders;
             timeline_viewer := timeline |}
          timer
    end.

End ResponsePane.

(** ** Reading a trace *)

Module Trace.
(** The history lists handed to the metadata patch, in order. *)
Definition history_patches (t : list Step) : list (string * list string) :=
  omap (λ s, match op s with
             | patchRequestMeta requestId patch =>
                 pair requestId <$> RequestMeta.set_responseFilterHistory patch
             | _ => None
             end) t.

(** The filter strings handed to the metadata patch, in order. *)
Definition filter_patches (t : list Step) : list (string * string) :=
  omap (λ s, match op s with
             | patchRequestMeta requestId patch =>
                 pair requestId <$> RequestMeta.set_responseFilter patch
             | _ => None
             end) t.

(** What the metadata store returned to the re-reads. *)
Definition rereads (t : list Step) : list (option RequestMeta.t) :=
  omap (λ s, match s with
             | Build_Step o x =>
                 match o return Ans o → option (option RequestMeta.t) with
                 | requestMeta_getByParentId _ => λ x, Some x
                 | _ => λ _, None
                 end x
             end) t.

(** The save dialogs shown, and what the user did in each. *)
Definition dialogs (t : list Step) : list SaveDialogOptions :=
  omap (λ s, match op s with
             | dialog_showSaveDialog options => Some options
             | _ => None
             end) t.

Definition dialog_results (t : list Step) : list SaveDialogResult :=
  omap (λ s, match s with
             | Build_Step o x =>
                 match o return Ans o → option SaveDialogResult with
                 | dialog_showSaveDialog _ => λ x, Some x
                 | _ => λ _, None
                 end x
             end) t.

(** The responses whose body was asked for, as a buffer or as a stream. *)
Definition body_reads (t : list Step) : list Response.t :=
  omap (λ s, match op s with
             | response_getBodyBuffer response => Some response
             | response_getBodyStream response => Some response
             | _ => None
             end) t.

(** What the response store returned for the body stream. *)
Definition body_streams (t : list Step) : list BodyStream :=
  omap (λ s, match s with
             | Build_Step o x =>
                 match o return Ans o → option BodyStream with
                 | response_getBodyStream _ => λ x, Some x
                 | _ => λ _, None
                 end x
             end) t.

(** The file-write streams created. *)
Definition created (t : list Step) : list WriteStream :=
  omap (λ s, match s with
             | Build_Step o x =>
                 match o return Ans o → option WriteStream with
                 | fs_createWriteStream path =>
                     λ x, Some {| ws_path := path; ws_errors := x |}
                 | _ => λ _, None
                 end x
             end) t.

(** The chunks written, with the path of the stream they went to. *)
Definition writes (t : list Step) : list (string * Chunk) :=
  omap (λ s, match op s with
             | stream_write to chunk => Some (ws_path to, chunk)
             | _ => None
             end) t.

(** The error dialogs shown. *)
Definition error_modals (t : list Step) : list ErrorModal :=
  omap (λ s, match op s with
             | showError modal => Some modal
             | _ => None
             end) t.

(** The texts written to the clipboard. *)
Definition clipboard_writes (t : list Step) : list string :=
  omap (λ s, match op s with
             | clipboard_writeText s => Some s
             | _ => None
             end) t.
End Trace.

(** ** A host in memory *)

(** Modelled from the spec: the collaborators of section 6, which are not
    part of the file: the request-metadata patch and read API, the response
    persistence API (body as buffer and as stream), the file-save dialog,
    the file-write stream and the clipboard.  The metadata store keeps one
    record per parent request; a patch replaces the named fields of that
    record.  A stored body is its list of chunks. *)
Record World := {
  requestMetas : gmap string RequestMeta.t;
  bodies : gmap string (list Buffer);
  clock : Z;
  user_saves : SaveDialogResult;
  disk_errors : list Error;
  clipboard : option string;
  files : gmap string (list Chunk);
}.

Definition apply_patch (p : RequestMeta.patch) (m : RequestMeta.t)
  : RequestMeta.t :=
  {| RequestMeta.previewMode :=
       default (RequestMeta.previewMode m) (RequestMeta.set_previewMode p);
     RequestMeta.responseFilter :=
       default (RequestMeta.responseFilter m)
               (RequestMeta.set_responseFilter p);
     RequestMeta.responseFilterHistory :=
       default (RequestMeta.responseFilterHistory m)
               (RequestMeta.set_responseFilterHistory p) |}.

Definition with_metas (w : World) (ms : gmap string RequestMeta.t) : World :=
  {| requestMetas := ms; bodies := bodies w; clock := clock w;
     user_saves := user_saves w; disk_errors := disk_errors w;
     clipboard := clipboard w; files := files w |}.

Definition with_clipboard (w : World) (c : option string) : World :=
  {| requestMetas := requestMetas w; bodies := bodies w; clock := clock w;
     user_saves := user_saves w; disk_errors := disk_errors w;
     clipboard := c; files := files w |}.

Definition with_files (w : World) (fs : gmap string (list Chunk)) : World :=
  {| requestMetas := requestMetas w; bodies := bodies w; clock := clock w;
     user_saves := user_saves w; disk_errors := disk_errors w;
     clipboard := clipboard w; files := fs |}.

Definition memory_answer (o : Op) (w : World) : Ans o * World :=
  match o return Ans o * World with
  | patchRequestMeta requestId patch =>
      (tt, with_metas w (alter (apply_patch patch) requestId (requestMetas w)))
  | requestMeta_getByParentId requestId => (requestMetas w !! requestId, w)
  | response_getBodyBuffer response =>
      (BufferOps.concat <$> bodies w !! Response._id response, w)
  | response_getBodyStream response =>
      (match bodies w !! Response._id response with
       | Some chunks => readable (map on_data chunks ++ [on_end])%list
       | None => no_stream
       end, w)
  | clipboard_writeText s => (tt, with_clipboard w (Some s))
  | console_warn _ => (tt, w)
  | Date_now => (clock w, w)
  | dialog_showSaveDialog _ => (user_saves w, w)
  | fs_createWriteStream path =>
      (disk_errors w, with_files w (<[path := []]> (files w)))
  | stream_write to chunk =>
      (tt, with_files w (alter (λ cs, cs ++ [chunk])%list (ws_path to) (files w)))
  | stream_end _ => (tt, w)
  | showError _ => (tt, w)
  | cancelRequestById _ => (tt, w)
  end.

Global Instance memory_host : Host World := memory_answer.

(** The history the memory host stores for a request. *)
Definition stored_history (w : World) (requestId : string)
  : option (list string) :=
  RequestMeta.responseFilterHistory <$> requestMetas w !! requestId.

(** ** What the properties speak of *)

(** The viewer of the preview tab, when the full pane is rendered. *)
Definition viewer (e : Element) : option ResponseViewer.props :=
  match e with
  | Pane _ _ tabs _ => Some (preview_viewer tabs)
  | _ => None
  end.

(** The dialog the ['error'] listener of the write stream shows. *)
Definition save_failed (err : Error) : ErrorModal :=
  {| modal_title := "Save Failed";
     modal_message := "Failed to save response body";
     modal_error := err |}.

(** What the ['end'] listener writes for the received [body]. *)
Definition written_body {imports : Imports} (prettify : bool)
    (contentType : string) (body : Buffer) : Chunk :=
  if prettify && Str.includes contentType "json"
  then chunk_text (jsonPrettify (toString_utf8 body))
  else chunk_bytes body.

(** The contents of [dataBuffers] at each ['end'] of a delivery. *)
Fixpoint snapshots (events : ReadStream) (dataBuffers : list Buffer)
  : list (list Buffer) :=
  match events with
  | [] => []
  | on_data data :: events' => snapshots events' (Array.push dataBuffers data)
  | on_end :: events' => dataBuffers :: snapshots events' dataBuffers
  end.

(** The steps of a write to a file: creating the stream, writing, ending,
    reporting an error. *)
Definition file_step (s : Step) : Prop :=
  match op s with
  | fs_createWriteStream _ | stream_write _ _ | stream_end _ | showError _ =>
      True
  | _ => False
  end.

Definition error_steps (raised : list Error) : list Step :=
  (λ err, {| op := showError (save_failed err); ans := tt |}) <$> raised.

(** The test of line 101: the stream to listen to and the path to write
    to, when there are both. *)
Definition download_target (readStream : BodyStream)
    (outputPath : option string) : option (ReadStream * string) :=
  match readStream, outputPath with
  | readable events, Some path =>
      if truthy path then Some (events, path) else None
  | _, _ => None
  end.

(** The test of [handleSetFilter] that ends the action before the history
    is patched: the filter is empty, or the first ten stored entries
    include it. *)
Definition skips_history (f : string) (stored : RequestMeta.t) : bool :=
  negb (truthy f)
  || Array.includes
       (Array.slice0 10 (RequestMeta.responseFilterHistory stored)) f.

(** ** A sample session

    One request with one JSON response of two chunks, a user who accepts the
    save dialog, and a disk that raises one error on every write stream. *)

Definition sample_imports : Imports :=
  {| mimeExtension :=
       λ s, if String.eqb s "application/json" then Some "json" else None;
     jsonPrettify := λ s, "<pretty>" +:+ s;
     toString_utf8 := string_of_list_byte;
     getSetCookieHeaders :=
       List.filter (λ h, String.eqb (header_name h) "set-cookie");
     getTimeline := λ _, [] |}.

Definition sample_response (error : option string) : Response.t :=
  {| Response._id := "res_1";
     Response.parentId := "req_1";
     Response.statusCode := 200;
     Response.statusMessage := "OK";
     Response.elapsedTime := 12;
     Response.bytesRead := 2;
     Response.bytesContent := 2;
     Response.contentType := "application/json";
     Response.headers := [];
     Response.error := error;
     Response.url := "http://localhost/items";
     Response.settingSendCookies := true;
     Response.settingStoreCookies := true |}.

(** A response whose body the store of [sample_world] does not hold. *)
Definition lost_response : Response.t :=
  {| Response._id := "res_9";
     Response.parentId := "req_1";
     Response.statusCode := 200;
     Response.statusMessage := "OK";
     Response.elapsedTime := 12;
     Response.bytesRead := 0;
     Response.bytesContent := 0;
     Response.contentType := "text/plain";
     Response.headers := [];
     Response.error := None;
     Response.url := "http://localhost/items";
     Response.settingSendCookies := true;
     Response.settingStoreCookies := true |}.

Definition sample_settings : Settings :=
  {| disableHtmlPreviewJs := false;
     disableResponsePreviewLinks := false;
     editorFontSize := 11 |}.

Definition sample_execution (requestId : string) : ExecutionState :=
  {| isExecuting := false; steps := [] |}.

Definition sample_meta (history : list string) : RequestMeta.t :=
  {| RequestMeta.previewMode := "friendly";
     RequestMeta.responseFilter := "";
     RequestMeta.responseFilterHistory := history |}.

Definition sample_data (history : list string)
    (response : option Response.t) : RequestLoaderData :=
  {| activeRequest := {| Request._id := "req_1"; Request.name := "List  items" |};
     activeRequestMeta := sample_meta history;
     activeResponse := response |}.

Definition sample_world (history : list string) (saves : SaveDialogResult)
  : World :=
  {| requestMetas := {[ "req_1" := sample_meta history ]};
     bodies := {[ "res_1" := [[Byte.x7b]; [Byte.x7d]] ]};
     clock := 1700000000000;
     user_saves := saves;
     disk_errors := [{| error_message := "ENOSPC" |}];
     clipboard := None;
     files := ∅ |}.

(** The loader data of the sample session, with [history] stored. *)
Definition with_response (history : list string) : RequestLoaderData :=
  sample_data history (Some (sample_response None)).

Definition accepts : SaveDialogResult :=
  {| canceled := false; filePath := Some "/tmp/out.json" |}.

Definition cancels : SaveDialogResult :=
  {| canceled := true; filePath := None |}.

Definition ten_filters : list string :=
  ["$.a"; "$.b"; "$.c"; "$.d"; "$.e"; "$.f"; "$.g"; "$.h"; "$.i"; "$.j"].

Definition eleven_filters : list string := (ten_filters ++ ["$.k"])%list.

(** The user submits the filters of [fs] one after the other; every
    submission is one run of [handleSetFilter]. *)
Fixpoint submit_all {W} {host : Host W} (data : RequestLoaderData) (fs : list string)
    (w : W) : W :=
  match fs with
  | [] => w
  | f :: fs' => submit_all data fs' (final (handleSetFilter data f) w)
  end.

(** ** Further readings of a trace, of a view and of a delivery *)

(** The requests whose metadata was patched, whatever the patch. *)
Definition patched (t : list Step) : list string :=
  omap (λ s, match op s with
             | patchRequestMeta requestId _ => Some requestId
             | _ => None
             end) t.

(** The requests whose cancellation was asked for. *)
Definition cancellations (t : list Step) : list string :=
  omap (λ s, match op s with
             | cancelRequestById requestId => Some requestId
             | _ => None
             end) t.

(** What the response store returned for the body buffer. *)
Definition buffer_answers (t : list Step) : list (option Buffer) :=
  omap (λ s, match s with
             | Build_Step o x =>
                 match o return Ans o → option (option Buffer) with
                 | response_getBodyBuffer _ => λ x, Some x
                 | _ => λ _, None
                 end x
             end) t.

(** The timer a rendered pane holds. *)
Definition pane_timer (e : Element) : option ResponseTimer.props :=
  match e with
  | BlankPane _ => None
  | PlaceholderResponsePane timer => timer
  | Pane _ _ _ timer => timer
  end.

(** The tabs of the full pane. *)
Definition pane_tabs (e : Element) : option Tabs :=
  match e with
  | Pane _ _ tabs _ => Some tabs
  | _ => None
  end.

(** The stream emits ['end'] at some point. *)
Definition ends (events : ReadStream) : bool :=
  existsb (λ e, match e with on_end => true | on_data _ => false end) events.

(** The characters of a string. *)
Fixpoint chars (s : string) : list ascii :=
  match s with
  | EmptyString => []
  | String c s' => c :: chars s'
  end.

(** The history the memory host stores after a submission of [f], as the
    source computes it from the history [stored] before. *)
Definition next_history (f : string) (stored : list string) : list string :=
  if negb (truthy f) || Array.includes (Array.slice0 10 stored) f
  then stored
  else Array.unshift (Array.slice0 10 stored) f.

(** A host like the memory host, except that the body stream it hands over
    delivers one chunk and never ends. *)
Definition stalled_answer (o : Op) (w : World) : Ans o * World :=
  match o return Ans o * World with
  | response_getBodyStream _ => (readable [on_data [Byte.x7b]], w)
  | o' => memory_answer o' w
  end.

(** A user who accepts the save dialog without a path. *)
Definition accepts_nowhere : SaveDialogResult :=
  {| canceled := false; filePath := None |}.

(** ** Content types, and the life of a write stream *)






(** The calls of a trace that create, write to or end a write stream. *)
Definition stream_ops (t : list Step) : list Op :=
  omap (λ s, match op s with
             | fs_createWriteStream _ | stream_write _ _ | stream_end _ =>
                 Some (op s)
             | _ => None
             end) t.

(** The life of one write stream: created for its path, written to once,
    ended. *)
Definition stream_life (to : WriteStream) (chunk : Chunk) : list Op :=
  [fs_createWriteStream (ws_path to); stream_write to chunk; stream_end to].

(** * Properties *)

(** ** Values, arrays *)

Lemma truthy_string_nonempty (s : string) : truthy s = true ↔ s ≠ "".
Proof. destruct s; unfold truthy, string_truthy; split; congruence. Qed.

Lemma falsy_string_empty (s : string) : truthy s = false ↔ s = "".
Proof. destruct s; unfold truthy, string_truthy; split; congruence. Qed.

Example Str_includes_json :
  Str.includes "application/vnd.api+json; charset=utf-8" "json" = true
  ∧ Str.includes "text/html" "json" = false
  ∧ Str.includes "application/JSON" "json" = false
  ∧ Str.includes "" "" = true.
Proof. repeat split; reflexivity. Qed.

Example Str_replace_spaces :
  Str.replace_spaces "List  items of   May " = "List_items_of_May_"
  ∧ Str.replace_spaces "ping" = "ping".
Proof. split; reflexivity. Qed.

Example Array_slice0_unshift :
  Array.unshift (Array.slice0 2 ["a"; "b"; "c"]) "z" = ["z"; "a"; "b"].
Proof. reflexivity. Qed.

Lemma Array_includes_spec a x : Array.includes a x = true ↔ x ∈ a.
Proof.
  induction a as [|y a IH]; simpl.
  - split; [congruence | by intros ?%elem_of_nil].
  - destruct (String.eqb_spec y x) as [->|Hne].
    + split; [intros _; left | done].
    + rewrite IH. split; [by right | ].
      intros [?|?]%elem_of_cons; [congruence | done].
Qed.

Lemma skips_history_spec f stored :
  skips_history f stored = true ↔
  f = "" ∨ f ∈ take 10 (RequestMeta.responseFilterHistory stored).
Proof.
  unfold skips_history. rewrite orb_true_iff, negb_true_iff.
  by rewrite falsy_string_empty, Array_includes_spec.
Qed.


(** ** Traces *)

Lemma writes_app t1 t2 :
  Trace.writes (t1 ++ t2) = Trace.writes t1 ++ Trace.writes t2.
Proof. apply omap_app. Qed.

Lemma created_app t1 t2 :
  Trace.created (t1 ++ t2) = Trace.created t1 ++ Trace.created t2.
Proof. apply omap_app. Qed.

Lemma error_modals_app t1 t2 :
  Trace.error_modals (t1 ++ t2)
  = Trace.error_modals t1 ++ Trace.error_modals t2.
Proof. apply omap_app. Qed.

Lemma error_steps_obs raised :
  Forall file_step (error_steps raised)
  ∧ Trace.writes (error_steps raised) = []
  ∧ Trace.created (error_steps raised) = []
  ∧ Trace.error_modals (error_steps raised) = save_failed <$> raised.
Proof.
  induction raised as [|err raised (IH1 & IH2 & IH3 & IH4)]; [done|].
  repeat split; simpl.
  - by constructor.
  - done.
  - done.
  - unfold Trace.error_modals in *. simpl. by f_equal.
Qed.

Lemma file_steps_frame t :
  Forall file_step t →
  Trace.dialog_results t = [] ∧ Trace.body_streams t = []
  ∧ Trace.dialogs t = [] ∧ Trace.body_reads t = [].
Proof.
  induction 1 as [|[o x] t Hs _ (IH1 & IH2 & IH3 & IH4)]; [done|].
  unfold file_step in Hs. simpl in Hs.
  by destruct o.
Qed.



(** ** Runs *)

Section Runs.
Context {W : Type} {host : Host W}.

Lemma run_bind {A B} (p : Prog A) (f : A → Prog B) (w : W) :
  run (bind p f) w =
  let '(a, w1, t1) := run p w in
  let '(b, w2, t2) := run (f a) w1 in
  (b, w2, t1 ++ t2).
Proof.
  revert w. induction p as [a|o k IH]; intros w; simpl.
  - by destruct (run (f a) w) as [[b w2] t2].
  - destruct (answer o w) as [x w1]. rewrite IH.
    destruct (run (k x) w1) as [[a w2] t1].
    by destruct (run (f a) w2) as [[b w3] t2].
Qed.

Lemma for_each_showError_run (modal : Error → ErrorModal) errs (w : W) :
  ∃ w', run (for_each errs (λ err, call (showError (modal err)))) w
        = (tt, w', (λ err, {| op := showError (modal err); ans := tt |})
                     <$> errs).
Proof.
  revert w. induction errs as [|err errs IH]; intros w; [by exists w|].
  simpl. destruct (answer _ w) as [[] w1].
  destruct (IH w1) as [w2 ->]. by exists w2.
Qed.

(** The run of [handleSetFilter]: nothing without a response; otherwise the
    filter patch, the re-read, and the history patch unless it is skipped. *)
Lemma handleSetFilter_trace (data : RequestLoaderData) (f : string) (w : W) :
  let t := trace (handleSetFilter data f) w in
  match activeResponse data with
  | None => t = []
  | Some r =>
      ∃ meta,
        Trace.rereads t = [meta]
        ∧ Trace.filter_patches t = [(Response.parentId r, f)]
        ∧ Trace.history_patches t =
            match meta with
            | None => []
            | Some stored =>
                if skips_history f stored then []
                else [(Response.parentId r,
                       f :: take 10 (RequestMeta.responseFilterHistory stored))]
            end
  end.
Proof.
  unfold trace, handleSetFilter, skips_history.
  destruct (activeResponse data) as [r|]; [|done]. simpl.
  destruct (answer _ w) as [[] w1].
  destruct (answer _ w1) as [meta w2]. exists meta.
  destruct meta as [stored|]; [|done].
  destruct (negb _ || _); [done|]. simpl.
  by destruct (answer _ w2) as [[] w3].
Qed.

Lemma handleSetFilter_history_patch data f (w : W) id h :
  (id, h) ∈ Trace.history_patches (trace (handleSetFilter data f) w) →
  ∃ stored,
    Trace.rereads (trace (handleSetFilter data f) w) = [Some stored]
    ∧ skips_history f stored = false
    ∧ h = f :: take 10 (RequestMeta.responseFilterHistory stored).
Proof.
  pose proof (handleSetFilter_trace data f w) as Ht. simpl in Ht.
  destruct (activeResponse data) as [r|].
  - destruct Ht as (meta & Hre & _ & ->). rewrite Hre.
    destruct meta as [stored|]; [|by intros ?%elem_of_nil].
    destruct (skips_history f stored) eqn:Hskip; [by intros ?%elem_of_nil|].
    intros [= _ ->]%list_elem_of_singleton. by exists stored.
  - rewrite Ht. by intros ?%elem_of_nil.
Qed.

(** Whatever is stored, a persisted history has at most eleven entries:
    ten kept by the slice and the new one in front. *)
Lemma handleSetFilter_history_length data f (w : W) id h :
  (id, h) ∈ Trace.history_patches (trace (handleSetFilter data f) w) →
  (length h ≤ 11)%nat.
Proof.
  intros (stored & _ & _ & ->)%handleSetFilter_history_patch.
  simpl. rewrite length_take. lia.
Qed.

(** Whatever is stored, an action that patches the history does so with
    the new filter in front of the first ten stored entries. *)
Lemma handleSetFilter_unshift_first_ten data f (w : W) r stored :
  let t := trace (handleSetFilter data f) w in
  activeResponse data = Some r →
  Trace.rereads t = [Some stored] →
  f ≠ "" → f ∉ take 10 (RequestMeta.responseFilterHistory stored) →
  Trace.history_patches t
  = [(Response.parentId r,
      f :: take 10 (RequestMeta.responseFilterHistory stored))].
Proof.
  intros t Hr Hre Hf Hnew. subst t.
  pose proof (handleSetFilter_trace data f w) as Ht. simpl in Ht.
  rewrite Hr in Ht. destruct Ht as (meta & Hre' & _ & ->).
  rewrite Hre in Hre'. injection Hre' as <-.
  destruct (skips_history f stored) eqn:Hskip; [|done].
  apply skips_history_spec in Hskip. tauto.
Qed.

Context {imports : Imports}.

Lemma end_listener_run prettify contentType outputPath dataBuffers (w : W) :
  ∃ raised w',
    let to := {| ws_path := outputPath; ws_errors := raised |} in
    run (end_listener prettify contentType outputPath dataBuffers) w
    = (tt, w',
       [ {| op := fs_createWriteStream outputPath; ans := raised |};
         {| op := stream_write to
                    (written_body prettify contentType
                       (BufferOps.concat dataBuffers));
            ans := tt |};
         {| op := stream_end to; ans := tt |} ]
       ++ error_steps raised).
Proof.
  unfold end_listener, written_body, error_steps. simpl.
  destruct (answer _ w) as [raised w1]. exists raised.
  destruct (prettify && Str.includes contentType "json"); simpl;
    destruct (answer _ w1) as [[] w2];
    destruct (answer _ w2) as [[] w3];
    destruct (for_each_showError_run save_failed raised w3) as [w4 Hrun];
    unfold save_failed in Hrun; rewrite Hrun; by exists w4.
Qed.

(** What a delivery of [events] does, whatever the host: only file steps;
    one write per ['end'], of the data received so far, to a stream created
    for [outputPath]; one error dialog per error a created stream raises. *)
Lemma emit_obs prettify contentType outputPath events dataBuffers (w : W) :
  let t := trace (emit events dataBuffers
                    (end_listener prettify contentType outputPath)) w in
  Forall file_step t
  ∧ Trace.writes t
    = (λ received, (outputPath,
                    written_body prettify contentType
                      (BufferOps.concat received)))
        <$> snapshots events dataBuffers
  ∧ Forall (λ to, ws_path to = outputPath) (Trace.created t)
  ∧ Trace.error_modals t = save_failed <$> (Trace.created t ≫= ws_errors).
Proof.
  revert dataBuffers w.
  induction events as [|[data|] events IH]; intros dataBuffers w.
  - done.
  - apply IH.
  - cbv zeta. unfold trace. cbn [emit]. unfold mbind, Prog_bind.
    rewrite run_bind.
    destruct (end_listener_run prettify contentType outputPath dataBuffers w)
      as (raised & w1 & ->). cbv zeta.
    specialize (IH dataBuffers w1). unfold trace in IH.
    destruct (run _ w1) as [[[] w2] t2]. simpl in IH. cbn [snd].
    destruct IH as (IH1 & IH2 & IH3 & IH4).
    destruct (error_steps_obs raised) as (E1 & E2 & E3 & E4).
    repeat split.
    + repeat apply Forall_app_2; [by repeat constructor|done..].
    + by rewrite !writes_app, E2, IH2.
    + rewrite !created_app, E3. apply Forall_app_2; [|done].
      by repeat constructor.
    + rewrite !error_modals_app, !created_app, E3, E4, IH4.
      simpl. by rewrite fmap_app.
Qed.

(** The run of the download action on an active response: the clock, the
    dialog and, unless the user cancels, the body stream; the events of the
    stream are delivered when there is a stream and a path to write to. *)
Lemma handleDownloadResponseBody_trace data prettify (w : W) r :
  activeResponse data = Some r →
  ∃ now options result readStream w',
    trace (handleDownloadResponseBody data prettify) w
    = {| op := Date_now; ans := now |}
      :: {| op := dialog_showSaveDialog options; ans := result |}
      :: (if canceled result then []
          else {| op := response_getBodyStream r; ans := readStream |}
               :: match download_target readStream (filePath result) with
                  | Some (events, outputPath) =>
                      trace (emit events []
                               (end_listener prettify (Response.contentType r)
                                  outputPath)) w'
                  | None => []
                  end).
Proof.
  intros Hr. unfold trace, handleDownloadResponseBody. rewrite Hr. simpl.
  destruct (answer Date_now w) as [now w1].
  destruct (answer (dialog_showSaveDialog _) w1) as [result w2] eqn:Hd.
  exists now. eexists. exists result.
  destruct (canceled result) eqn:Hc; simpl.
  { by exists no_stream, w. }
  destruct (answer (response_getBodyStream r) w2) as [readStream w3].
  exists readStream, w3. unfold download_target.
  destruct readStream as [|s|events]; simpl; try done.
  - by rewrite andb_false_r.
  - destruct (filePath result) as [path|]; simpl; [|done].
    change (truthy (Some path)) with (truthy path).
    destruct (truthy path); simpl; [|done].
    by destruct (run _ w3) as [[[] ?] ?].
Qed.

Lemma handleDownloadResponseBody_nothing data prettify (w : W) :
  activeResponse data = None →
  trace (handleDownloadResponseBody data prettify) w
  = [{| op := console_warn "Nothing to download"; ans := tt |}].
Proof.
  intros Hr. unfold trace, handleDownloadResponseBody. rewrite Hr. simpl.
  by destruct (answer _ w) as [[] ?].
Qed.

Lemma handleCopyResponseToClipboard_nothing data (w : W) :
  activeResponse data = None →
  trace (handleCopyResponseToClipboard data) w = [].
Proof.
  intros Hr.
  unfold trace, handleCopyResponseToClipboard, handleGetResponseBody.
  by rewrite Hr.
Qed.

(** Without an error the viewer gets the stored preview mode, or "source"
    when none is stored, and the filter action. *)
Lemma ResponsePane_viewer_without_error activeRequestId data settings
    useExecutionState r :
  activeResponse data = Some r →
  truthy (Response.error r) = false →
  ∃ v,
    viewer (ResponsePane activeRequestId data settings useExecutionState)
    = Some v
    ∧ ResponseViewer.previewMode v
      = RequestMeta.previewMode (activeRequestMeta data) ||| PREVIEW_MODE_SOURCE
    ∧ ResponseViewer.updateFilter v = Some (handleSetFilter data).
Proof.
  intros Hr He. unfold ResponsePane. rewrite Hr. simpl.
  eexists. split; [done|]. simpl. by rewrite He.
Qed.

End Runs.

(** ** The memory host *)

(** In the memory host a submission whose history patch is skipped leaves
    the stored history of every request as it was. *)
Lemma memory_skipped_submission_keeps_history data f (w : World) requestId :
  Trace.history_patches (trace (handleSetFilter data f) w) = [] →
  stored_history (final (handleSetFilter data f) w) requestId
  = stored_history w requestId.
Proof.
  unfold trace, final, handleSetFilter, stored_history.
  destruct (activeResponse data) as [r|]; [|done]. simpl.
  rewrite lookup_alter_eq.
  destruct (requestMetas w !! Response.parentId r) as [stored|] eqn:Hst; simpl.
  - destruct (negb _ || _); simpl; [|done].
    intros _. rewrite lookup_alter. case_decide as Hid; [|done].
    subst requestId. by rewrite Hst.
  - intros _. rewrite lookup_alter. case_decide as Hid; [|done].
    subst requestId. by rewrite Hst.
Qed.

(** ** The filter history *)

Section FilterHistory.
Context {W : Type} {host : Host W}.
Implicit Types (w : W) (data : RequestLoaderData) (f : string).

(** C4: when the history the action re-reads has no duplicate, no empty
    string and at most ten entries, every history list the action persists
    has no duplicate and no empty string; and for a filter that is empty or
    already in that history the action persists no history list at all, so
    the stored history stays as it is. *)
Theorem handleSetFilter_keeps_history_clean data f w stored :
  let t := trace (handleSetFilter data f) w in
  let history := RequestMeta.responseFilterHistory stored in
  Trace.rereads t = [Some stored] →
  NoDup history → "" ∉ history → (length history ≤ 10)%nat →
  (∀ id h, (id, h) ∈ Trace.history_patches t → NoDup h ∧ "" ∉ h)
  ∧ (f = "" ∨ f ∈ history → Trace.history_patches t = []).
Proof.
  intros t history Hre Hnd Hne Hlen. split.
  - intros id h (stored' & Hre' & Hskip & ->)%handleSetFilter_history_patch.
    fold t in Hre'. rewrite Hre in Hre'. injection Hre' as <-.
    assert (¬ (f = "" ∨ f ∈ take 10 history)) as Hfresh.
    { intros Hc%skips_history_spec. congruence. }
    fold history. rewrite take_ge in Hfresh |- * by done. split.
    + apply NoDup_cons. tauto.
    + rewrite not_elem_of_cons. split; [|done]. intros <-. tauto.
  - intros Hold. subst t.
    pose proof (handleSetFilter_trace data f w) as Ht. simpl in Ht.
    destruct (activeResponse data) as [r|].
    + destruct Ht as (meta & Hre' & _ & ->). rewrite Hre in Hre'.
      injection Hre' as <-.
      replace (skips_history f stored) with true; [done|].
      symmetry. apply skips_history_spec.
      by rewrite take_ge.
    + by rewrite Ht.
Qed.

(** C9, amended: for a filter that is not empty and not in the history the
    action re-reads, and a re-read history of fewer than ten entries, the
    action persists exactly one history list: the new filter first, then
    the prior entries in their order. *)
Theorem handleSetFilter_unshifts data f w r stored :
  let t := trace (handleSetFilter data f) w in
  let history := RequestMeta.responseFilterHistory stored in
  activeResponse data = Some r →
  Trace.rereads t = [Some stored] →
  f ≠ "" → f ∉ history → (length history < 10)%nat →
  Trace.history_patches t = [(Response.parentId r, f :: history)].
Proof.
  intros t history Hr Hre Hf Hnew Hlen. subst t history.
  rewrite <- (take_ge (RequestMeta.responseFilterHistory stored) 10) by lia.
  apply handleSetFilter_unshift_first_ten; try done.
  rewrite take_ge by lia. done.
Qed.

(** C10, amended: with an active response the action persists the
    submitted filter string, once and for the parent request, whatever the
    string is; it persists no history list when the string is empty or is
    one of the first ten entries of the re-read history, and none when the
    re-read returns nothing. *)
Theorem handleSetFilter_persists_filter data f w r :
  let t := trace (handleSetFilter data f) w in
  activeResponse data = Some r →
  Trace.filter_patches t = [(Response.parentId r, f)]
  ∧ (∀ stored,
       Trace.rereads t = [Some stored] →
       f = "" ∨ f ∈ take 10 (RequestMeta.responseFilterHistory stored) →
       Trace.history_patches t = [])
  ∧ (Trace.rereads t = [None] → Trace.history_patches t = []).
Proof.
  intros t Hr. subst t.
  pose proof (handleSetFilter_trace data f w) as Ht. simpl in Ht.
  rewrite Hr in Ht. destruct Ht as (meta & -> & -> & ->).
  split; [done|]. split.
  - intros stored [= ->] Hold%skips_history_spec. by rewrite Hold.
  - by intros [= ->].
Qed.

End FilterHistory.

(** ** The download *)

Section Download.
Context {W : Type} {host : Host W} {imports : Imports}.
Implicit Types (w : W) (data : RequestLoaderData).


(** C6: when the user cancels the save dialog, the action creates no
    file-write stream and writes nothing; it does not ask for the body
    either. *)
Theorem download_canceled_writes_nothing data prettify w :
  let t := trace (handleDownloadResponseBody data prettify) w in
  (∀ result, result ∈ Trace.dialog_results t → canceled result = true) →
  Trace.created t = [] ∧ Trace.writes t = [] ∧ Trace.body_reads t = [].
Proof.
  intros t Hcancel. subst t.
  destruct (activeResponse data) as [r|] eqn:Hr.
  - destruct (handleDownloadResponseBody_trace data prettify w r Hr)
      as (now & options & result & readStream & w' & Ht).
    rewrite Ht in Hcancel |- *. clear Ht.
    rewrite (Hcancel result); [done|]. simpl. left.
  - by rewrite handleDownloadResponseBody_nothing.
Qed.

(** C7: for every error that a file-write stream created by the action
    raises, the action shows the error dialog titled "Save Failed", with
    the message "Failed to save response body" and that error. *)
Theorem download_write_error_shows_dialog data prettify w to err :
  let t := trace (handleDownloadResponseBody data prettify) w in
  to ∈ Trace.created t → err ∈ ws_errors to →
  {| modal_title := "Save Failed";
     modal_message := "Failed to save response body";
     modal_error := err |} ∈ Trace.error_modals t.
Proof.
  intros t. subst t.
  destruct (activeResponse data) as [r|] eqn:Hr.
  - destruct (handleDownloadResponseBody_trace data prettify w r Hr)
      as (now & options & result & readStream & w' & ->).
    destruct (canceled result); [by intros ?%elem_of_nil|].
    destruct (download_target _ _) as [[events outputPath]|];
      [|by intros ?%elem_of_nil].
    destruct (emit_obs prettify (Response.contentType r) outputPath
                events [] w') as (_ & _ & _ & Hmodals).
    change (Trace.created (_ :: _ :: _ :: ?l)) with (Trace.created l).
    change (Trace.error_modals (_ :: _ :: _ :: ?l))
      with (Trace.error_modals l).
    rewrite Hmodals. intros Hto Herr.
    apply (list_elem_of_fmap_2 save_failed), list_elem_of_bind.
    by exists to.
  - rewrite handleDownloadResponseBody_nothing by done.
    by intros ?%elem_of_nil.
Qed.

(** C8: when the response store hands over no stream, or a string in place
    of a stream, the action creates no file-write stream, writes nothing
    and shows no error dialog. *)
Theorem download_without_stream_is_silent data prettify w :
  let t := trace (handleDownloadResponseBody data prettify) w in
  (∀ readStream, readStream ∈ Trace.body_streams t →
     readStream = no_stream ∨ ∃ s, readStream = string_body s) →
  Trace.created t = [] ∧ Trace.writes t = [] ∧ Trace.error_modals t = [].
Proof.
  intros t Hnone. subst t.
  destruct (activeResponse data) as [r|] eqn:Hr.
  - destruct (handleDownloadResponseBody_trace data prettify w r Hr)
      as (now & options & result & readStream & w' & Ht).
    rewrite Ht in Hnone |- *. clear Ht.
    destruct (canceled result); [done|].
    destruct (Hnone readStream) as [->|[s ->]]; [simpl; left|done..].
  - by rewrite handleDownloadResponseBody_nothing.
Qed.

End Download.

(** ** The content type that is pretty-printed *)



Section DownloadByContentType.
Context {W : Type} {host : Host W} {imports : Imports}.
Implicit Types (w : W) (data : RequestLoaderData).

End DownloadByContentType.



(** ** The view *)

Section View.
Context {W : Type} {host : Host W} {imports : Imports}.
Variable activeRequestId : string.
Variable settings : Settings.
Variable useExecutionState : string → ExecutionState.

(** C3: when the active response has a non-empty error, the full pane is
    rendered and its response viewer gets the preview mode "source"
    ([PREVIEW_MODE_SOURCE]), whatever preview mode the metadata stores, and
    no filter-update callback. *)
Theorem error_forces_source_preview data r e :
  activeResponse data = Some r →
  Response.error r = Some e → e ≠ "" →
  ∃ v,
    viewer (ResponsePane activeRequestId data settings useExecutionState)
    = Some v
    ∧ ResponseViewer.previewMode v = PREVIEW_MODE_SOURCE
    ∧ ResponseViewer.updateFilter v = None.
Proof.
  intros Hr He Hne%truthy_string_nonempty.
  unfold ResponsePane. rewrite Hr. simpl.
  eexists. split; [done|]. simpl. rewrite He.
  change (truthy (Some e)) with (truthy e). by rewrite Hne.
Qed.

(** C5: without an active response the component renders the placeholder
    pane; the download action shows no dialog, asks for no body, creates no
    file-write stream and writes nothing; the copy action writes nothing to
    the clipboard. *)
Theorem no_response_placeholder_and_noops data prettify (w : W) :
  let download := trace (handleDownloadResponseBody data prettify) w in
  let copy := trace (handleCopyResponseToClipboard data) w in
  activeResponse data = None →
  ResponsePane activeRequestId data settings useExecutionState
  = PlaceholderResponsePane (timer activeRequestId data useExecutionState)
  ∧ (Trace.dialogs download = [] ∧ Trace.body_reads download = []
     ∧ Trace.created download = [] ∧ Trace.writes download = [])
  ∧ (Trace.body_reads copy = [] ∧ Trace.clipboard_writes copy = []).
Proof.
  intros download copy Hr. subst download copy.
  rewrite handleDownloadResponseBody_nothing,
    handleCopyResponseToClipboard_nothing by done.
  unfold ResponsePane. by rewrite Hr.
Qed.

End View.

(** ** The sample session *)

(** Eleven distinct submissions on an empty history leave eleven entries
    in the store. *)
Example eleven_submissions_store_eleven :
  stored_history
    (submit_all (with_response []) eleven_filters (sample_world [] accepts))
    "req_1"
  = Some (reverse eleven_filters).
Proof. vm_compute. reflexivity. Qed.

(** The run of the download in the sample session, with [prettify]: the
    clock, the dialog with the default path made of the request name, the
    stream, then the write to the chosen path and the report of the error
    the disk raises. *)
Example sample_download_ops :
  op <$> trace (handleDownloadResponseBody (imports := sample_imports)
                  (with_response []) true)
           (sample_world [] accepts)
  = let to := {| ws_path := "/tmp/out.json";
                 ws_errors := [{| error_message := "ENOSPC" |}] |} in
    [ Date_now;
      dialog_showSaveDialog
        {| title := "Save Response Body";
           buttonLabel := "Save";
           defaultPath := "List_items-1700000000000.json" |};
      response_getBodyStream (sample_response None);
      fs_createWriteStream "/tmp/out.json";
      stream_write to (chunk_text "<pretty>{}");
      stream_end to;
      showError (save_failed {| error_message := "ENOSPC" |}) ].
Proof. vm_compute. reflexivity. Qed.

(** The copy action in the sample session puts the decoded body on the
    clipboard. *)
Example sample_copy_clipboard :
  clipboard (final (handleCopyResponseToClipboard (imports := sample_imports)
                      (with_response []))
               (sample_world [] accepts))
  = Some "{}".
Proof. vm_compute. reflexivity. Qed.

(** C1: on a stored history of ten entries and a new filter, the history
    list the action persists has eleven entries. *)
Theorem handleSetFilter_history_reaches_eleven :
  Trace.history_patches
    (trace (handleSetFilter (with_response ten_filters) "$.k")
       (sample_world ten_filters accepts))
  = [("req_1", "$.k" :: ten_filters)]
  ∧ length ("$.k" :: ten_filters) = 11%nat.
Proof. split; vm_compute; reflexivity. Qed.

Lemma handleSetFilter_keeps_history_clean_witness :
  (∀ id h,
     (id, h) ∈ Trace.history_patches
                 (trace (handleSetFilter (with_response ten_filters) "$.k")
                    (sample_world ten_filters accepts)) →
     NoDup h ∧ "" ∉ h)
  ∧ ("$.k" = "" ∨ "$.k" ∈ ten_filters →
     Trace.history_patches
       (trace (handleSetFilter (with_response ten_filters) "$.k")
          (sample_world ten_filters accepts)) = []).
Proof.
  eapply (handleSetFilter_keeps_history_clean
            (with_response ten_filters) "$.k"
            (sample_world ten_filters accepts)
            {| RequestMeta.previewMode := "friendly";
               RequestMeta.responseFilter := "$.k";
               RequestMeta.responseFilterHistory := ten_filters |}).
  - vm_compute. reflexivity.
  - simpl. compute_done.
  - simpl. compute_done.
  - simpl. lia.
Defined.

Lemma handleSetFilter_unshifts_witness :
  Trace.history_patches
    (trace (handleSetFilter (with_response ["$.a"; "$.b"]) "$.c")
       (sample_world ["$.a"; "$.b"] accepts))
  = [("req_1", ["$.c"; "$.a"; "$.b"])].
Proof.
  eapply (handleSetFilter_unshifts
            (with_response ["$.a"; "$.b"]) "$.c"
            (sample_world ["$.a"; "$.b"] accepts) (sample_response None)
            {| RequestMeta.previewMode := "friendly";
               RequestMeta.responseFilter := "$.c";
               RequestMeta.responseFilterHistory := ["$.a"; "$.b"] |}).
  - reflexivity.
  - vm_compute. reflexivity.
  - discriminate.
  - simpl. compute_done.
  - simpl. lia.
Defined.

(** C9 fails as stated: on a stored history of eleven entries and a new
    filter, the persisted list is not the new filter followed by the prior
    entries; the eleventh is gone. *)
Lemma handleSetFilter_drops_beyond_ten :
  "$.z" ≠ "" ∧ ("$.z" ∉ eleven_filters)
  ∧ Trace.rereads
      (trace (handleSetFilter (with_response eleven_filters) "$.z")
         (sample_world eleven_filters accepts))
    = [Some {| RequestMeta.previewMode := "friendly";
               RequestMeta.responseFilter := "$.z";
               RequestMeta.responseFilterHistory := eleven_filters |}]
  ∧ Trace.history_patches
      (trace (handleSetFilter (with_response eleven_filters) "$.z")
         (sample_world eleven_filters accepts))
    = [("req_1", "$.z" :: ten_filters)]
  ∧ Trace.history_patches
      (trace (handleSetFilter (with_response eleven_filters) "$.z")
         (sample_world eleven_filters accepts))
    ≠ [("req_1", "$.z" :: eleven_filters)].
Proof.
  split; [discriminate|]. split; [compute_done|].
  split; [vm_compute; reflexivity|].
  split; [vm_compute; reflexivity|].
  vm_compute. discriminate.
Qed.

Lemma handleSetFilter_persists_filter_witness :
  Trace.filter_patches
    (trace (handleSetFilter (with_response ten_filters) "$.c")
       (sample_world ten_filters accepts))
  = [("req_1", "$.c")]
  ∧ Trace.history_patches
      (trace (handleSetFilter (with_response ten_filters) "$.c")
         (sample_world ten_filters accepts))
    = [].
Proof.
  destruct (handleSetFilter_persists_filter
              (with_response ten_filters) "$.c"
              (sample_world ten_filters accepts) (sample_response None)
              eq_refl) as (Hfilter & Hskip & _).
  split; [exact Hfilter|].
  eapply Hskip.
  - vm_compute. reflexivity.
  - right. simpl. compute_done.
Defined.

(** C10 fails as stated: on a stored history of eleven entries, submitting
    the eleventh again, a duplicate, does not skip the history patch. *)
Lemma handleSetFilter_patches_late_duplicate :
  "$.k" ∈ eleven_filters
  ∧ Trace.rereads
      (trace (handleSetFilter (with_response eleven_filters) "$.k")
         (sample_world eleven_filters accepts))
    = [Some {| RequestMeta.previewMode := "friendly";
               RequestMeta.responseFilter := "$.k";
               RequestMeta.responseFilterHistory := eleven_filters |}]
  ∧ Trace.history_patches
      (trace (handleSetFilter (with_response eleven_filters) "$.k")
         (sample_world eleven_filters accepts))
    = [("req_1", "$.k" :: ten_filters)].
Proof.
  split; [compute_done|].
  split; vm_compute; reflexivity.
Qed.

Lemma download_canceled_writes_nothing_witness :
  Trace.created
    (trace (handleDownloadResponseBody (imports := sample_imports)
              (with_response []) true)
       (sample_world [] cancels)) = []
  ∧ Trace.writes
      (trace (handleDownloadResponseBody (imports := sample_imports)
                (with_response []) true)
         (sample_world [] cancels)) = []
  ∧ Trace.body_reads
      (trace (handleDownloadResponseBody (imports := sample_imports)
                (with_response []) true)
         (sample_world [] cancels)) = [].
Proof.
  apply (download_canceled_writes_nothing (imports := sample_imports)
           (with_response []) true (sample_world [] cancels)).
  intros result Hin. vm_compute in Hin.
  apply list_elem_of_singleton in Hin. by subst result.
Defined.

Lemma download_write_error_shows_dialog_witness :
  {| modal_title := "Save Failed";
     modal_message := "Failed to save response body";
     modal_error := {| error_message := "ENOSPC" |} |}
  ∈ Trace.error_modals
      (trace (handleDownloadResponseBody (imports := sample_imports)
                (with_response []) false)
         (sample_world [] accepts)).
Proof.
  apply (download_write_error_shows_dialog (imports := sample_imports)
           (with_response []) false (sample_world [] accepts)
           {| ws_path := "/tmp/out.json";
              ws_errors := [{| error_message := "ENOSPC" |}] |}).
  - vm_compute. left.
  - simpl. left.
Defined.

Lemma download_without_stream_is_silent_witness :
  Trace.created
    (trace (handleDownloadResponseBody (imports := sample_imports)
              (sample_data [] (Some lost_response)) false)
       (sample_world [] accepts)) = []
  ∧ Trace.writes
      (trace (handleDownloadResponseBody (imports := sample_imports)
                (sample_data [] (Some lost_response)) false)
         (sample_world [] accepts)) = []
  ∧ Trace.error_modals
      (trace (handleDownloadResponseBody (imports := sample_imports)
                (sample_data [] (Some lost_response)) false)
         (sample_world [] accepts)) = [].
Proof.
  apply (download_without_stream_is_silent (imports := sample_imports)
           (sample_data [] (Some lost_response)) false
           (sample_world [] accepts)).
  intros readStream Hin. vm_compute in Hin.
  apply list_elem_of_singleton in Hin. by left.
Defined.

Lemma error_forces_source_preview_witness :
  ∃ v,
    viewer (ResponsePane (imports := sample_imports) "req_1"
              (sample_data [] (Some (sample_response (Some "Timeout"))))
              sample_settings sample_execution)
    = Some v
    ∧ ResponseViewer.previewMode v = PREVIEW_MODE_SOURCE
    ∧ ResponseViewer.updateFilter v = None.
Proof.
  apply (error_forces_source_preview (imports := sample_imports) "req_1"
           sample_settings sample_execution
           (sample_data [] (Some (sample_response (Some "Timeout"))))
           (sample_response (Some "Timeout")) "Timeout").
  - reflexivity.
  - reflexivity.
  - discriminate.
Defined.

Lemma no_response_placeholder_and_noops_witness :
  ResponsePane (imports := sample_imports) "req_1" (sample_data [] None)
    sample_settings sample_execution
  = PlaceholderResponsePane None
  ∧ Trace.dialogs
      (trace (handleDownloadResponseBody (imports := sample_imports)
                (sample_data [] None) true)
         (sample_world [] accepts)) = []
  ∧ Trace.clipboard_writes
      (trace (handleCopyResponseToClipboard (imports := sample_imports)
                (sample_data [] None))
         (sample_world [] accepts)) = [].
Proof.
  destruct (no_response_placeholder_and_noops (imports := sample_imports)
              "req_1" sample_settings sample_execution
              (sample_data [] None) true (sample_world [] accepts) eq_refl)
    as (Hpane & (Hdialogs & _) & (_ & Hclipboard)).
  split; [exact Hpane|]. by split.
Defined.

(** * Further properties *)

Section MoreFilter.
Context {W : Type} {host : Host W}.
Implicit Types (w : W) (data : RequestLoaderData) (f : string).

(** X1: every history list the action persists starts with the submitted
    filter, which is not empty, and has at most eleven entries. *)
Theorem handleSetFilter_history_shape data f w id h :
  (id, h) ∈ Trace.history_patches (trace (handleSetFilter data f) w) →
  f ≠ "" ∧ head h = Some f ∧ (length h ≤ 11)%nat.
Proof.
  intros (stored & _ & Hskip & ->)%handleSetFilter_history_patch.
  split; [|split].
  - intros ->. by rewrite (proj2 (skips_history_spec "" stored)) in Hskip
      by by left.
  - done.
  - simpl. rewrite length_take. lia.
Qed.

(** X2: whatever the length of the re-read history, a filter that is not
    empty and not among its first ten entries is persisted in front of
    those first ten entries, in one history patch for the parent request. *)
Theorem handleSetFilter_unshifts_onto_first_ten data f w r stored :
  let t := trace (handleSetFilter data f) w in
  activeResponse data = Some r →
  Trace.rereads t = [Some stored] →
  f ≠ "" → f ∉ take 10 (RequestMeta.responseFilterHistory stored) →
  Trace.history_patches t
  = [(Response.parentId r,
      f :: take 10 (RequestMeta.responseFilterHistory stored))].
Proof. apply handleSetFilter_unshift_first_ten. Qed.

(** X3: whatever its length, a re-read history without duplicates and
    without the empty string gives persisted histories without duplicates
    and without the empty string. *)
Theorem handleSetFilter_preserves_distinct data f w stored :
  let t := trace (handleSetFilter data f) w in
  let history := RequestMeta.responseFilterHistory stored in
  Trace.rereads t = [Some stored] →
  NoDup history → "" ∉ history →
  ∀ id h, (id, h) ∈ Trace.history_patches t → NoDup h ∧ "" ∉ h.
Proof.
  intros t history Hre Hnd Hne id h
    (stored' & Hre' & Hskip & ->)%handleSetFilter_history_patch.
  fold t in Hre'. rewrite Hre in Hre'. injection Hre' as <-.
  assert (¬ (f = "" ∨ f ∈ take 10 history)) as Hfresh.
  { intros Hc%skips_history_spec. congruence. }
  fold history. split.
  - apply NoDup_cons. split; [tauto|].
    apply (sublist_NoDup _ history); [done|apply sublist_take].
  - rewrite not_elem_of_cons. split; [intros <-; tauto|].
    intros Hin. apply Hne. by apply (subseteq_take 10).
Qed.

(** X4: the action patches the metadata of no request but the parent of
    the active response, once or twice; without an active response it
    makes no call at all. *)
Theorem handleSetFilter_patches_parent_only data f w :
  let t := trace (handleSetFilter data f) w in
  match activeResponse data with
  | None => t = []
  | Some r =>
      patched t = [Response.parentId r]
      ∨ patched t = [Response.parentId r; Response.parentId r]
  end.
Proof.
  unfold trace, handleSetFilter.
  destruct (activeResponse data) as [r|]; [|done]. simpl.
  destruct (answer _ w) as [[] w1].
  destruct (answer _ w1) as [[stored|] w2]; [|by left].
  destruct (negb _ || _); [by left|]. simpl.
  destruct (answer _ w2) as [[] w3]. by right.
Qed.
End MoreFilter.

Section MoreDownload.
Context {W : Type} {host : Host W} {imports : Imports}.
Implicit Types (w : W) (data : RequestLoaderData).

Lemma emit_without_end (on_end_do : list Buffer → Prog unit) events
    dataBuffers w :
  ends events = false → run (emit events dataBuffers on_end_do) w = (tt, w, []).
Proof.
  revert dataBuffers.
  induction events as [|[data|] events IH]; intros dataBuffers; simpl;
    [done|apply IH|done].
Qed.

Lemma file_steps_untouched t :
  Forall file_step t →
  patched t = [] ∧ Trace.clipboard_writes t = [] ∧ cancellations t = []
  ∧ buffer_answers t = [].
Proof.
  induction 1 as [|[o x] t Hs _ (IH1 & IH2 & IH3 & IH4)]; [done|].
  unfold file_step in Hs. simpl in Hs.
  by destruct o.
Qed.

Lemma download_target_Some readStream outputPath events path :
  download_target readStream outputPath = Some (events, path) →
  readStream = readable events ∧ outputPath = Some path ∧ path ≠ "".
Proof.
  unfold download_target.
  destruct readStream as [|s|events']; [done..|].
  destruct outputPath as [path'|]; [|done].
  destruct (truthy path') eqn:Hp; [|done].
  intros [= -> ->]. by apply truthy_string_nonempty in Hp.
Qed.

(** X5: with an active response the copy action asks the store for the
    body buffer once; it writes the decoded buffer to the clipboard when
    the store returns one, also an empty one, and writes nothing when the
    store returns none. *)
Theorem copy_writes_decoded_buffer data w r :
  let t := trace (handleCopyResponseToClipboard data) w in
  activeResponse data = Some r →
  Trace.body_reads t = [r]
  ∧ ∃ answered,
      buffer_answers t = [answered]
      ∧ Trace.clipboard_writes t
        = match answered with
          | Some bodyBuffer => [toString_utf8 bodyBuffer]
          | None => []
          end.
Proof.
  intros t Hr. subst t.
  unfold trace, handleCopyResponseToClipboard, handleGetResponseBody.
  rewrite Hr. simpl.
  destruct (answer _ w) as [[bodyBuffer|] w1]; simpl.
  - destruct (answer _ w1) as [[] w2]. split; [done|]. by eexists.
  - split; [done|]. by eexists.
Qed.

(** X6: when the dialog is accepted without a path, or with an empty one,
    the action creates no file-write stream, writes nothing and shows no
    error dialog, whatever the response store hands over. *)
Theorem download_without_path_writes_nothing data prettify w :
  let t := trace (handleDownloadResponseBody data prettify) w in
  (∀ result, result ∈ Trace.dialog_results t →
     filePath result = None ∨ filePath result = Some "") →
  Trace.created t = [] ∧ Trace.writes t = [] ∧ Trace.error_modals t = [].
Proof.
  intros t Hpath. subst t.
  destruct (activeResponse data) as [r|] eqn:Hr.
  - destruct (handleDownloadResponseBody_trace data prettify w r Hr)
      as (now & options & result & readStream & w' & Ht).
    rewrite Ht in Hpath |- *. clear Ht.
    destruct (canceled result); [done|].
    destruct (download_target _ _) as [[events path]|] eqn:Htarget; [|done].
    apply download_target_Some in Htarget as (_ & Hsome & Hne).
    destruct (Hpath result) as [Hnone|Hempty]; [simpl; left|congruence..].
  - by rewrite handleDownloadResponseBody_nothing.
Qed.

(** X7: when the stream the response store hands over never emits
    ['end'], the action creates no file-write stream, writes nothing and
    shows no error dialog: the data received is dropped. *)
Theorem download_without_end_writes_nothing data prettify w :
  let t := trace (handleDownloadResponseBody data prettify) w in
  (∀ events, readable events ∈ Trace.body_streams t → ends events = false) →
  Trace.created t = [] ∧ Trace.writes t = [] ∧ Trace.error_modals t = [].
Proof.
  intros t Hends. subst t.
  destruct (activeResponse data) as [r|] eqn:Hr.
  - destruct (handleDownloadResponseBody_trace data prettify w r Hr)
      as (now & options & result & readStream & w' & Ht).
    rewrite Ht in Hends |- *. clear Ht.
    destruct (canceled result); [done|].
    destruct (download_target _ _) as [[events path]|] eqn:Htarget; [|done].
    apply download_target_Some in Htarget as (-> & _ & _).
    unfold trace at 1 2 3.
    rewrite emit_without_end; [done|].
    apply Hends. simpl. left.
  - by rewrite handleDownloadResponseBody_nothing.
Qed.

(** X8: the error dialogs the action shows are exactly the "Save Failed"
    dialogs of the errors its file-write streams raise, one per error and
    in their order; it shows no other error dialog. *)
Theorem download_error_dialogs_exact data prettify w :
  let t := trace (handleDownloadResponseBody data prettify) w in
  Trace.error_modals t = save_failed <$> (Trace.created t ≫= ws_errors).
Proof.
  intros t. subst t.
  destruct (activeResponse data) as [r|] eqn:Hr.
  - destruct (handleDownloadResponseBody_trace data prettify w r Hr)
      as (now & options & result & readStream & w' & ->).
    destruct (canceled result); [done|].
    destruct (download_target _ _) as [[events outputPath]|]; [|done].
    destruct (emit_obs prettify (Response.contentType r) outputPath
                events [] w') as (_ & _ & _ & Hmodals).
    change (Trace.created (_ :: _ :: _ :: ?l)) with (Trace.created l).
    by change (Trace.error_modals (_ :: _ :: _ :: ?l))
      with (Trace.error_modals l).
  - by rewrite handleDownloadResponseBody_nothing.
Qed.

(** X9: every file-write stream the action creates is created for the
    path the user chose in the dialog, and the dialog was not canceled. *)
Theorem download_creates_at_chosen_path data prettify w to :
  let t := trace (handleDownloadResponseBody data prettify) w in
  to ∈ Trace.created t →
  ∃ result,
    Trace.dialog_results t = [result]
    ∧ canceled result = false
    ∧ filePath result = Some (ws_path to).
Proof.
  intros t. subst t.
  destruct (activeResponse data) as [r|] eqn:Hr.
  - destruct (handleDownloadResponseBody_trace data prettify w r Hr)
      as (now & options & result & readStream & w' & ->).
    destruct (canceled result) eqn:Hc; [by intros ?%elem_of_nil|].
    destruct (download_target _ _) as [[events outputPath]|] eqn:Htarget;
      [|by intros ?%elem_of_nil].
    apply download_target_Some in Htarget as (_ & Hsome & _).
    destruct (emit_obs prettify (Response.contentType r) outputPath
                events [] w') as (Hfile & _ & Hpaths & _).
    destruct (file_steps_frame _ Hfile) as (Hdialogs & _).
    change (Trace.created (_ :: _ :: _ :: ?l)) with (Trace.created l).
    change (Trace.dialog_results (_ :: ?s :: _ :: ?l))
      with (result :: Trace.dialog_results l).
    rewrite Hdialogs. intros Hto. exists result.
    rewrite Forall_forall in Hpaths. by rewrite (Hpaths to Hto).
  - rewrite handleDownloadResponseBody_nothing by done.
    by intros ?%elem_of_nil.
Qed.

(** X11: the download action shows at most one save dialog, and it never
    patches request metadata, never writes to the clipboard, never cancellations
    a request and never asks for the body as a buffer. *)
Theorem download_touches_nothing_else data prettify w :
  let t := trace (handleDownloadResponseBody data prettify) w in
  (length (Trace.dialogs t) ≤ 1)%nat
  ∧ patched t = [] ∧ Trace.clipboard_writes t = [] ∧ cancellations t = []
  ∧ buffer_answers t = [].
Proof.
  intros t. subst t.
  destruct (activeResponse data) as [r|] eqn:Hr.
  - destruct (handleDownloadResponseBody_trace data prettify w r Hr)
      as (now & options & result & readStream & w' & ->).
    destruct (canceled result); [by repeat split; simpl; lia|].
    destruct (download_target _ _) as [[events outputPath]|];
      [|by repeat split; simpl; lia].
    destruct (emit_obs prettify (Response.contentType r) outputPath
                events [] w') as (Hfile & _).
    destruct (file_steps_frame _ Hfile) as (_ & _ & Hdialogs & _).
    destruct (file_steps_untouched _ Hfile) as (Hp & Hc & Hcancel & Hb).
    change (Trace.dialogs (_ :: ?s :: _ :: ?l))
      with (options :: Trace.dialogs l).
    change (patched (_ :: _ :: _ :: ?l)) with (patched l).
    change (Trace.clipboard_writes (_ :: _ :: _ :: ?l))
      with (Trace.clipboard_writes l).
    change (cancellations (_ :: _ :: _ :: ?l)) with (cancellations l).
    change (buffer_answers (_ :: _ :: _ :: ?l)) with (buffer_answers l).
    rewrite Hdialogs. by repeat split.
  - rewrite handleDownloadResponseBody_nothing by done.
    repeat split; simpl; lia.
Qed.
End MoreDownload.

Section StreamLives.
Context {W : Type} {host : Host W} {imports : Imports}.
Implicit Types (w : W) (data : RequestLoaderData).

Lemma stream_ops_app t1 t2 :
  stream_ops (t1 ++ t2) = stream_ops t1 ++ stream_ops t2.
Proof. apply omap_app. Qed.

Lemma error_steps_stream_ops raised : stream_ops (error_steps raised) = [].
Proof. by induction raised. Qed.

(** In a delivery the calls on write streams are the lives of the created
    streams, one after the other: each stream is created, written to once
    and ended before the next one is created. *)
Lemma emit_stream_lives prettify contentType outputPath events dataBuffers
    w :
  let t := trace (emit events dataBuffers
                    (end_listener prettify contentType outputPath)) w in
  length (Trace.writes t) = length (Trace.created t)
  ∧ stream_ops t
    = concat (zip_with stream_life (Trace.created t) (Trace.writes t).*2).
Proof.
  revert dataBuffers w.
  induction events as [|[data|] events IH]; intros dataBuffers w.
  - done.
  - apply IH.
  - cbv zeta. unfold trace. cbn [emit]. unfold mbind, Prog_bind.
    rewrite run_bind.
    destruct (end_listener_run prettify contentType outputPath dataBuffers w)
      as (raised & w1 & ->). cbv zeta.
    specialize (IH dataBuffers w1). unfold trace in IH.
    destruct (run _ w1) as [[[] w2] t2]. simpl in IH. cbn [snd].
    destruct IH as (IH1 & IH2).
    destruct (error_steps_obs raised) as (_ & E2 & E3 & _).
    rewrite !writes_app, !created_app, !stream_ops_app, E2, E3,
      error_steps_stream_ops, IH2.
    split; [simpl; by rewrite IH1|done].
Qed.

(** X10: the calls the action makes on write streams are the lives of the
    streams it creates, one after the other in the order of creation: each
    stream is created for its path, then written to once, then ended, and
    only then is the next one created; no other write or end occurs. *)
Theorem download_streams_written_and_ended data prettify w :
  let t := trace (handleDownloadResponseBody data prettify) w in
  length (Trace.writes t) = length (Trace.created t)
  ∧ stream_ops t
    = concat (zip_with stream_life (Trace.created t) (Trace.writes t).*2).
Proof.
  intros t. subst t.
  destruct (activeResponse data) as [r|] eqn:Hr.
  - destruct (handleDownloadResponseBody_trace data prettify w r Hr)
      as (now & options & result & readStream & w' & ->).
    destruct (canceled result); [done|].
    destruct (download_target _ _) as [[events outputPath]|]; [|done].
    change (Trace.created (_ :: _ :: _ :: ?l)) with (Trace.created l).
    change (Trace.writes (_ :: _ :: _ :: ?l)) with (Trace.writes l).
    change (stream_ops (_ :: _ :: _ :: ?l)) with (stream_ops l).
    apply emit_stream_lives.
  - by rewrite handleDownloadResponseBody_nothing.
Qed.
End StreamLives.

(** Two ['end'] events in the sample session: two streams, each created,
    written to and ended in turn. *)
Example two_ends_two_lives :
  stream_ops
    (trace (emit [on_data [Byte.x7b]; on_end; on_data [Byte.x7d]; on_end] []
              (end_listener (imports := sample_imports)
                 false "text/plain" "/tmp/out.txt"))
       (sample_world [] accepts))
  = let to := {| ws_path := "/tmp/out.txt";
                 ws_errors := [{| error_message := "ENOSPC" |}] |} in
    stream_life to (chunk_bytes [Byte.x7b])
    ++ stream_life to (chunk_bytes [Byte.x7b; Byte.x7d]).
Proof. vm_compute. reflexivity. Qed.

Section MoreView.
Context {W : Type} {host : Host W} {imports : Imports}.
Variable activeRequestId : string.
Variable settings : Settings.
Variable useExecutionState : string → ExecutionState.

Lemma or_else_empty (s : string) : s ||| "" = s.
Proof. by destruct s. Qed.

(** X12: for an active response without an error (none, or the empty
    string) the viewer gets the stored preview mode, or "source" when the
    stored one is empty, the filter action itself, and the stored filter,
    the stored filter history and the content type of the response as they
    are; the byte count it gets is no less than either count of the
    response. *)
Theorem viewer_without_error data r :
  activeResponse data = Some r →
  Response.error r = None ∨ Response.error r = Some "" →
  ∃ v,
    viewer (ResponsePane activeRequestId data settings useExecutionState)
    = Some v
    ∧ ResponseViewer.previewMode v
      = (if decide (RequestMeta.previewMode (activeRequestMeta data) = "")
         then "source"
         else RequestMeta.previewMode (activeRequestMeta data))
    ∧ ResponseViewer.updateFilter v = Some (handleSetFilter data)
    ∧ ResponseViewer.filter v
      = RequestMeta.responseFilter (activeRequestMeta data)
    ∧ ResponseViewer.filterHistory v
      = RequestMeta.responseFilterHistory (activeRequestMeta data)
    ∧ ResponseViewer.contentType v = Response.contentType r
    ∧ (Response.bytesRead r ≤ ResponseViewer.bytes v)%Z
    ∧ (Response.bytesContent r ≤ ResponseViewer.bytes v)%Z.
Proof.
  intros Hr He. unfold ResponsePane. rewrite Hr. simpl.
  eexists. split; [done|]. simpl.
  assert (truthy (Response.error r) = false) as ->
    by (by destruct He as [-> | ->]).
  unfold previewMode, filter, filterHistory.
  rewrite !or_else_empty.
  split; [|repeat split; try done; lia].
  unfold or_else, PREVIEW_MODE_SOURCE.
  by destruct (RequestMeta.previewMode (activeRequestMeta data)).
Qed.

(** X13: the pane holds a timer exactly when the request is executing,
    with or without a response; the cancel control of that timer asks for
    the cancellation of the active request and makes no other call. *)
Theorem timer_cancels_active_request data (w : W) :
  let pane := ResponsePane activeRequestId data settings useExecutionState in
  let executing :=
    isExecuting (useExecutionState (Request._id (activeRequest data))) in
  (is_Some (pane_timer pane) ↔ executing = true)
  ∧ ∀ t, pane_timer pane = Some t →
      ResponseTimer.activeRequestId t = activeRequestId
      ∧ op <$> trace (ResponseTimer.handleCancel t) w
        = [cancelRequestById (Request._id (activeRequest data))].
Proof.
  intros pane executing.
  assert (pane_timer pane = timer activeRequestId data useExecutionState)
    as ->.
  { subst pane. unfold ResponsePane. simpl.
    by destruct (activeResponse data). }
  unfold timer. fold executing. destruct executing; split.
  - split; [done|by eexists].
  - intros t [= <-]. split; [done|]. unfold trace. simpl.
    by destruct (answer _ w) as [[] ?].
  - split; [by intros [? ?]|done].
  - done.
Qed.

(** X14: for an active response the full pane is rendered; its headers tab
    carries no count for a response without headers and the number of
    headers otherwise, and its cookies tab likewise for the cookie headers
    selected from them. *)
Theorem tabs_count_badges data r :
  activeResponse data = Some r →
  ∃ tabs,
    pane_tabs (ResponsePane activeRequestId data settings useExecutionState)
    = Some tabs
    ∧ headers_viewer tabs = Response.headers r
    ∧ cookies_headers tabs = getSetCookieHeaders (Response.headers r)
    ∧ headers_count tabs
      = match Response.headers r with
        | [] => None
        | hs => Some (length hs)
        end
    ∧ cookies_count tabs
      = match getSetCookieHeaders (Response.headers r) with
        | [] => None
        | hs => Some (length hs)
        end.
Proof.
  intros Hr. unfold ResponsePane. rewrite Hr. simpl.
  eexists. split; [done|]. simpl. repeat split.
  - by destruct (Response.headers r).
  - by destruct (getSetCookieHeaders (Response.headers r)).
Qed.
End MoreView.

Lemma replace_spaces_from_no_space in_run s :
  " "%char ∉ chars (Str.replace_spaces_from in_run s).
Proof.
  revert in_run. induction s as [|c s IH]; intros in_run; simpl.
  - apply not_elem_of_nil.
  - destruct (Ascii.eqb_spec c " ") as [->|Hc].
    + destruct in_run; [apply IH|]. simpl.
      rewrite not_elem_of_cons. split; [done|apply IH].
    + simpl. rewrite not_elem_of_cons. split; [done|apply IH].
Qed.

Lemma replace_spaces_from_length in_run s :
  (String.length (Str.replace_spaces_from in_run s) ≤ String.length s)%nat.
Proof.
  revert in_run. induction s as [|c s IH]; intros in_run; simpl; [done|].
  pose proof (IH true) as Htrue. pose proof (IH false) as Hfalse.
  destruct (Ascii.eqb c " "); [destruct in_run|]; simpl; lia.
Qed.

Lemma replace_spaces_from_id in_run s :
  " "%char ∉ chars s → Str.replace_spaces_from in_run s = s.
Proof.
  revert in_run. induction s as [|c s IH]; intros in_run; simpl; [done|].
  intros [Hc Hs]%not_elem_of_cons.
  destruct (Ascii.eqb_spec c " ") as [->|_]; [done|].
  by rewrite IH.
Qed.

(** X15: the file name the save dialog proposes is made of the request
    name with every run of spaces replaced by one underscore: the result
    has no space, is no longer than the name, and is the name itself when
    the name has no space. *)
Theorem replace_spaces_sound (s : string) :
(" "%char ∉ chars (Str.replace_spaces s))
  ∧ (String.length (Str.replace_spaces s) ≤ String.length s)%nat
  ∧ (" "%char ∉ chars s → Str.replace_spaces s = s)
  ∧ Str.replace_spaces (Str.replace_spaces s) = Str.replace_spaces s.
Proof.
  unfold Str.replace_spaces. repeat split.
  - apply replace_spaces_from_no_space.
  - apply replace_spaces_from_length.
  - apply replace_spaces_from_id.
  - apply replace_spaces_from_id, replace_spaces_from_no_space.
Qed.

(** ** Submissions against the memory host *)

Lemma next_history_spec f stored :
  next_history f stored
  = if bool_decide (f = "" ∨ f ∈ take 10 stored) then stored
    else f :: take 10 stored.
Proof.
  unfold next_history, Array.unshift, Array.slice0.
  destruct (negb (truthy f) || Array.includes (take 10 stored) f) eqn:Hc.
  - rewrite bool_decide_eq_true_2; [done|].
    apply orb_true_iff in Hc as [Hc|Hc].
    + left. by apply falsy_string_empty, negb_true_iff.
    + right. by apply Array_includes_spec.
  - rewrite bool_decide_eq_false_2; [done|].
    apply orb_false_iff in Hc as [Hempty Hin].
    intros [->|Hc]; [done|].
    apply Array_includes_spec in Hc. congruence.
Qed.

(** What one submission does to the history the memory host stores for the
    parent request, and that it leaves the other requests alone. *)
Lemma memory_submission_history data f (w : World) r requestId :
  activeResponse data = Some r →
  stored_history (final (handleSetFilter data f) w) requestId
  = if decide (requestId = Response.parentId r)
    then next_history f <$> stored_history w requestId
    else stored_history w requestId.
Proof.
  intros Hr. unfold final, handleSetFilter, stored_history, next_history.
  rewrite Hr. cbn -[take Array.includes alter lookup].
  rewrite lookup_alter_eq.
  destruct (requestMetas w !! Response.parentId r) as [stored|] eqn:Hst;
    cbn -[take Array.includes alter lookup].
  - unfold Array.slice0.
    destruct (negb _ || _) eqn:Hc; cbn -[take Array.includes alter lookup].
    + rewrite lookup_alter.
      destruct (decide (Response.parentId r = requestId)) as [<-|Hne].
      * rewrite !decide_True, Hst by done.
        cbn -[take Array.includes]. by rewrite Hc.
      * by rewrite decide_False by done.
    + rewrite !lookup_alter.
      destruct (decide (Response.parentId r = requestId)) as [<-|Hne].
      * rewrite !decide_True, Hst by done.
        cbn -[take Array.includes]. by rewrite Hc.
      * by rewrite decide_False by done.
  - rewrite lookup_alter.
    destruct (decide (Response.parentId r = requestId)) as [<-|Hne].
    + rewrite decide_True by done. by rewrite Hst.
    + by rewrite decide_False by done.
Qed.

Lemma next_history_invariant f stored :
  NoDup stored → "" ∉ stored → (length stored ≤ 11)%nat →
  NoDup (next_history f stored) ∧ ("" ∉ next_history f stored)
  ∧ (length (next_history f stored) ≤ 11)%nat.
Proof.
  intros Hnd Hne Hlen. rewrite next_history_spec.
  case_bool_decide as Hc; [done|].
  repeat split.
  - apply NoDup_cons. split; [tauto|].
    apply (sublist_NoDup _ stored); [done|apply sublist_take].
  - rewrite not_elem_of_cons. split; [intros <-; tauto|].
    intros Hin. apply Hne. by apply (subseteq_take 10).
  - simpl. rewrite length_take. lia.
Qed.

(** X16: in the memory host, where a patch replaces the named fields of the
    stored record, any sequence of submissions keeps the stored history of
    every request free of duplicates and of the empty string and at most
    eleven entries long, when it was so before. *)
Theorem submissions_keep_history_invariant data fs (w : World) requestId h :
  stored_history w requestId = Some h →
  NoDup h → "" ∉ h → (length h ≤ 11)%nat →
  ∃ h',
    stored_history (submit_all data fs w) requestId = Some h'
    ∧ NoDup h' ∧ ("" ∉ h') ∧ (length h' ≤ 11)%nat.
Proof.
  revert w h. induction fs as [|f fs IH]; intros w h Hst Hnd Hne Hlen.
  - by exists h.
  - simpl. destruct (activeResponse data) as [r|] eqn:Hr.
    + pose proof (memory_submission_history data f w r requestId Hr) as Hnext.
      rewrite Hst in Hnext. simpl in Hnext.
      destruct (decide (requestId = Response.parentId r)).
      * destruct (next_history_invariant f h) as (? & ? & ?); [done..|].
        by eapply IH.
      * by eapply IH.
    + eapply (IH _ h); [|done..].
      unfold final, handleSetFilter. by rewrite Hr.
Qed.

(** X17: in the memory host, submitting a filter a second time right after
    the first changes no stored history: the second submission finds the
    filter among the first ten entries, or finds it empty. *)
Theorem resubmission_changes_no_history data f (w : World) requestId :
  stored_history (submit_all data [f; f] w) requestId
  = stored_history (submit_all data [f] w) requestId.
Proof.
  simpl. destruct (activeResponse data) as [r|] eqn:Hr.
  - rewrite (memory_submission_history data f _ r requestId Hr).
    case_decide as Hid; [|done].
    rewrite (memory_submission_history data f w r requestId Hr).
    rewrite decide_True by done.
    destruct (stored_history w requestId) as [h|]; [|done]. simpl. f_equal.
    rewrite (next_history_spec f (next_history f h)), next_history_spec.
    destruct (decide (f = "" ∨ f ∈ take 10 h)) as [Hc|Hc].
    + rewrite (bool_decide_eq_true_2 _ Hc).
      by rewrite (bool_decide_eq_true_2 _ Hc).
    + rewrite (bool_decide_eq_false_2 _ Hc).
      rewrite bool_decide_eq_true_2; [done|].
      right. change (take 10 (f :: ?l)) with (f :: take 9 l). left.
  - unfold final, handleSetFilter. by rewrite Hr.
Qed.

(** ** The further properties in the sample session *)

Lemma handleSetFilter_history_shape_witness :
  "$.k" ≠ "" ∧ head ("$.k" :: ten_filters) = Some "$.k"
  ∧ (length ("$.k" :: ten_filters) ≤ 11)%nat.
Proof.
  apply (handleSetFilter_history_shape (with_response ten_filters) "$.k"
           (sample_world ten_filters accepts) "req_1").
  vm_compute. left.
Defined.

Lemma handleSetFilter_unshifts_onto_first_ten_witness :
  Trace.history_patches
    (trace (handleSetFilter (with_response eleven_filters) "$.z")
       (sample_world eleven_filters accepts))
  = [("req_1", "$.z" :: ten_filters)].
Proof.
  apply (handleSetFilter_unshifts_onto_first_ten
           (with_response eleven_filters) "$.z"
           (sample_world eleven_filters accepts) (sample_response None)
           {| RequestMeta.previewMode := "friendly";
              RequestMeta.responseFilter := "$.z";
              RequestMeta.responseFilterHistory := eleven_filters |}).
  - reflexivity.
  - vm_compute. reflexivity.
  - discriminate.
  - simpl. compute_done.
Defined.

Lemma handleSetFilter_preserves_distinct_witness :
  NoDup ("$.z" :: ten_filters) ∧ ("" ∉ "$.z" :: ten_filters).
Proof.
  pose proof (handleSetFilter_preserves_distinct
                (with_response eleven_filters) "$.z"
                (sample_world eleven_filters accepts)
                {| RequestMeta.previewMode := "friendly";
                   RequestMeta.responseFilter := "$.z";
                   RequestMeta.responseFilterHistory := eleven_filters |})
    as Hdistinct.
  cbv zeta in Hdistinct. apply (Hdistinct) with (id := "req_1").
  - vm_compute. reflexivity.
  - simpl. compute_done.
  - simpl. compute_done.
  - vm_compute. left.
Defined.

Lemma copy_writes_decoded_buffer_witness :
  Trace.clipboard_writes
    (trace (handleCopyResponseToClipboard (imports := sample_imports)
              (with_response []))
       (sample_world [] accepts))
  = ["{}"].
Proof.
  destruct (copy_writes_decoded_buffer (imports := sample_imports)
              (with_response []) (sample_world [] accepts)
              (sample_response None) eq_refl)
    as (_ & answered & Hanswered & Hwrites).
  rewrite Hwrites. vm_compute in Hanswered.
  injection Hanswered as <-. vm_compute. reflexivity.
Defined.

Lemma download_without_path_writes_nothing_witness :
  Trace.created
    (trace (handleDownloadResponseBody (imports := sample_imports)
              (with_response []) true)
       (sample_world [] accepts_nowhere)) = []
  ∧ Trace.writes
      (trace (handleDownloadResponseBody (imports := sample_imports)
                (with_response []) true)
         (sample_world [] accepts_nowhere)) = []
  ∧ Trace.error_modals
      (trace (handleDownloadResponseBody (imports := sample_imports)
                (with_response []) true)
         (sample_world [] accepts_nowhere)) = [].
Proof.
  apply (download_without_path_writes_nothing (imports := sample_imports)
           (with_response []) true (sample_world [] accepts_nowhere)).
  intros result Hin. vm_compute in Hin.
  apply list_elem_of_singleton in Hin. subst result. by left.
Defined.

Lemma download_without_end_writes_nothing_witness :
  Trace.created
    (trace (host := stalled_answer)
       (handleDownloadResponseBody (imports := sample_imports)
          (with_response []) true)
       (sample_world [] accepts)) = []
  ∧ Trace.writes
      (trace (host := stalled_answer)
         (handleDownloadResponseBody (imports := sample_imports)
            (with_response []) true)
         (sample_world [] accepts)) = []
  ∧ Trace.error_modals
      (trace (host := stalled_answer)
         (handleDownloadResponseBody (imports := sample_imports)
            (with_response []) true)
         (sample_world [] accepts)) = [].
Proof.
  apply (download_without_end_writes_nothing (host := stalled_answer)
           (imports := sample_imports)
           (with_response []) true (sample_world [] accepts)).
  intros events Hin. vm_compute in Hin.
  apply list_elem_of_singleton in Hin. by injection Hin as ->.
Defined.

Lemma download_creates_at_chosen_path_witness :
  ∃ result,
    Trace.dialog_results
      (trace (handleDownloadResponseBody (imports := sample_imports)
                (with_response []) true)
         (sample_world [] accepts)) = [result]
    ∧ canceled result = false
    ∧ filePath result = Some "/tmp/out.json".
Proof.
  apply (download_creates_at_chosen_path (imports := sample_imports)
           (with_response []) true (sample_world [] accepts)
           {| ws_path := "/tmp/out.json";
              ws_errors := [{| error_message := "ENOSPC" |}] |}).
  vm_compute. left.
Defined.

Lemma viewer_without_error_witness :
  ∃ v,
    viewer (ResponsePane (imports := sample_imports) "req_1"
              (with_response ["$.a"]) sample_settings sample_execution)
    = Some v
    ∧ ResponseViewer.previewMode v = "friendly"
    ∧ ResponseViewer.filterHistory v = ["$.a"].
Proof.
  destruct (viewer_without_error (imports := sample_imports) "req_1"
              sample_settings sample_execution (with_response ["$.a"])
              (sample_response None) eq_refl (or_introl eq_refl))
    as (v & Hv & Hmode & _ & _ & Hhistory & _).
  exists v. by repeat split.
Defined.

Lemma tabs_count_badges_witness :
  ∃ tabs,
    pane_tabs (ResponsePane (imports := sample_imports) "req_1"
                 (with_response []) sample_settings sample_execution)
    = Some tabs
    ∧ headers_count tabs = None.
Proof.
  destruct (tabs_count_badges (imports := sample_imports) "req_1"
              sample_settings sample_execution (with_response [])
              (sample_response None) eq_refl)
    as (tabs & Htabs & _ & _ & Hcount & _).
  exists tabs. by split.
Defined.

Lemma submissions_keep_history_invariant_witness :
  ∃ h',
    stored_history
      (submit_all (with_response ten_filters) ["$.k"; "$.a"; ""; "$.z"]
         (sample_world ten_filters accepts)) "req_1" = Some h'
    ∧ NoDup h' ∧ ("" ∉ h') ∧ (length h' ≤ 11)%nat.
Proof.
  apply (submissions_keep_history_invariant (with_response ten_filters)
           ["$.k"; "$.a"; ""; "$.z"] (sample_world ten_filters accepts)
           "req_1" ten_filters).
  - vm_compute. reflexivity.
  - compute_done.
  - compute_done.
  - simpl. lia.
Defined.
